(** * The chat screen of the AI mobile assistant: model provisioning and
      conversation session

    Shallow embedding of [HomeScreen] from [app/index.tsx] and of the
    second copy of the screen kept in the repository (called [Part000]
    here): the React state cells, [clearChat], [loadModel] and
    [sendMessage].

    Modelling choices.
    - A JavaScript string is the list of its UTF-16 code units.
    - The six [useState] cells form the [Store].  A handler created by a
      render reads the values that render captured; the setters write the
      store.  [sendMessage] therefore takes the captured values as an
      argument of their own, and [onPress] is the handler of the render of
      the current store.
    - An [async] function is run to completion: each [await] takes the
      outcome of its external call from the environment [Env] and records
      the call in a log.  A thrown value is an object with an optional
      [message] property, or [null]/[undefined].
    - JavaScript control flow ([throw], [return], [try]/[catch]/[finally])
      is a small monad over completion records. *)

From Stdlib Require Import List NArith Bool String Ascii Lia.
From Stdlib Require DecimalString.
Import ListNotations.

Set Implicit Arguments.

(* ------------------------------------------------------------------ *)
(** ** JavaScript strings and errors *)

Module Js.

(** UTF-16 code units. *)
Definition str := list N.

(** A source literal (all literals of the source are ASCII). *)
Definition lit (s : string) : str :=
  map N_of_ascii (list_ascii_of_string s).

(** ECMAScript [WhiteSpace] and [LineTerminator] code points, the
    characters [String.prototype.trim] strips. *)
Definition isWhiteSpace (c : N) : bool :=
  ((9 <=? c) && (c <=? 13)             (* TAB, LF, VT, FF, CR *)
   || (c =? 32) || (c =? 160)          (* SP, NBSP *)
   || (c =? 5760)                      (* U+1680 *)
   || ((8192 <=? c) && (c <=? 8202))   (* U+2000 .. U+200A *)
   || (c =? 8232) || (c =? 8233)       (* LS, PS *)
   || (c =? 8239) || (c =? 8287)       (* U+202F, U+205F *)
   || (c =? 12288) || (c =? 65279))%N. (* U+3000, U+FEFF *)

Fixpoint trimStart (s : str) : str :=
  match s with
  | [] => []
  | c :: r => if isWhiteSpace c then trimStart r else s
  end.

Definition trimEnd (s : str) : str := rev (trimStart (rev s)).

Definition trim (s : str) : str := trimEnd (trimStart s).

(** [ToBoolean] of a string: the empty string is the only falsy one. *)
Definition truthy (s : str) : bool :=
  match s with [] => false | _ :: _ => true end.

Fixpoint startsWith (s pat : str) : bool :=
  match pat, s with
  | [], _ => true
  | _ :: _, [] => false
  | p :: pat', c :: s' => (c =? p)%N && startsWith s' pat'
  end.

(** [s.includes(pat)]. *)
Fixpoint includes (s pat : str) : bool :=
  startsWith s pat
  || match s with [] => false | _ :: r => includes r pat end.

(** A thrown value ([catch (e: any)]): an object, whose [message] may
    be undefined, or one of [null] and [undefined], which have no
    properties. *)
Inductive Error :=
| mkError (message : option str)
| nullish.

(** [m || dflt] for a possibly undefined string [m]. *)
Definition orElse (m : option str) (dflt : str) : str :=
  match m with
  | Some s => if truthy s then s else dflt
  | None => dflt
  end.

(** [e?.message?.includes(pat)], as a condition. *)
Definition messageIncludes (e : Error) (pat : str) : bool :=
  match e with
  | mkError (Some s) => includes s pat
  | _ => false
  end.

End Js.

(* ------------------------------------------------------------------ *)
(** ** Data model *)

Inductive Role := user | assistant | system.

Record Message := mkMessage { role : Role; content : Js.str }.

(** The value [initLlama] resolves to: an opaque engine context. *)
Definition Handle := N.

(** The two source files of the screen. *)
Inductive Variant := AppIndex | Part000.

(** The [useState] cells of [HomeScreen].  [downloadProgress] keeps the
    quotient [totalBytesWritten / totalBytesExpectedToWrite] as the pair
    of its operands. *)
Record Store := mkStore {
  downloadProgress : N * N;
  messages : list Message;
  inputMessage : Js.str;
  error : option Js.str;
  isProcessing : bool;
  context : option Handle
}.

Definition initialStore : Store :=
  {| downloadProgress := (0%N, 1%N); messages := []; inputMessage := [];
     error := None; isProcessing := false; context := None |}.

(** The two file-system entries the screen touches. *)
Inductive Path := ModelDirectory | LocalModelPath.

Definition MODEL_URL : Js.str :=
  Js.lit "https://pub-741c015d579d42f8acfe54bd0788c5ef.r2.dev/gemma-2-2b-it-Q8_0.gguf".

Definition pathString (documentDirectory : Js.str) (p : Path) : Js.str :=
  match p with
  | ModelDirectory => documentDirectory ++ Js.lit "models/"
  | LocalModelPath =>
      (documentDirectory ++ Js.lit "models/") ++ Js.lit "gemma-2-2b-it-Q8_0-011.gguf"
  end.

Record FileSystem := mkFS { dirExists : bool; fileExists : bool }.

Definition pathExists (fs : FileSystem) (p : Path) : bool :=
  match p with
  | ModelDirectory => dirExists fs
  | LocalModelPath => fileExists fs
  end.

(** Argument of [initLlama]. *)
Record LlamaConfig := mkLlamaConfig {
  model : Path;
  use_mlock : bool;
  n_ctx : N;
  n_gpu_layers : N;
  use_progress_callback : bool
}.

(** First argument of [context.completion]. *)
Record CompletionRequest := mkRequest {
  req_messages : list Message;
  n_predict : N;
  stop : list Js.str
}.

(** External calls, in the order they are awaited. *)
Inductive Event :=
| EvGetInfo (p : Path) (md5 : bool)
| EvMakeDirectory (p : Path) (intermediates : bool)
| EvDownload (url : Js.str) (dest : Path)
| EvLoadLlamaModelInfo (p : Path)
| EvInitLlama (cfg : LlamaConfig)
| EvCompletion (h : Handle) (req : CompletionRequest).

(** What the outside world answers to one run of a handler.  Every call
    site is executed at most once per run. *)
Record Env := mkEnv {
  (** [getInfoAsync path {md5}] rejects with this error, if any *)
  getInfoError : Path -> bool -> option Js.Error;
  makeDirectoryError : option Js.Error;
  (** progress notifications [(written, expected)] of the transfer *)
  downloadTicks : list (N * N);
  (** [None]: the transfer completes; [Some (e, partialLeft)]: it rejects with
      [e], and [partialLeft] tells whether a file is left at the local path *)
  downloadOutcome : option (Js.Error * bool);
  modelInfoError : option Js.Error;
  initLlamaResult : Js.Error + Handle;
  completionResult : Handle -> CompletionRequest -> Js.Error + Js.str
}.

Record Machine := mkMachine { store : Store; fs : FileSystem }.

(* ------------------------------------------------------------------ *)
(** ** Control flow *)

(** How a block of statements ends. *)
Inductive Completion (A : Type) :=
| Normal (a : A)
| Throw (e : Js.Error)
| Return.

Arguments Normal {A} a.
Arguments Throw {A} e.
Arguments Return {A}.

Record Result (A : Type) := mkResult {
  outcome : Completion A;
  final : Machine;
  log : list Event
}.

Definition M (A : Type) := Env -> Machine -> Result A.

Definition ret {A} (a : A) : M A :=
  fun _ s => mkResult (Normal a) s [].

Definition throw {A} (e : Js.Error) : M A :=
  fun _ s => mkResult (Throw e) s [].

Definition return_ {A} : M A :=
  fun _ s => mkResult Return s [].

Definition bind {A B} (m : M A) (k : A -> M B) : M B :=
  fun env s =>
    match m env s with
    | mkResult (Normal a) s1 l1 =>
        match k a env s1 with
        | mkResult o s2 l2 => mkResult o s2 (l1 ++ l2)
        end
    | mkResult (Throw e) s1 l1 => mkResult (Throw e) s1 l1
    | mkResult Return s1 l1 => mkResult Return s1 l1
    end.

Declare Scope js_scope.
Delimit Scope js_scope with js.
Notation "x <- m ;; k" := (bind m (fun x => k))
  (at level 61, m at next level, right associativity) : js_scope.
Notation "m ;; k" := (bind m (fun _ => k))
  (at level 61, right associativity) : js_scope.
Open Scope js_scope.

(** [try { body } catch (e) { handler e }] *)
Definition tryCatch {A} (body : M A) (handler : Js.Error -> M A) : M A :=
  fun env s =>
    match body env s with
    | mkResult (Throw e) s1 l1 =>
        match handler e env s1 with
        | mkResult o s2 l2 => mkResult o s2 (l1 ++ l2)
        end
    | r => r
    end.

(** [try { body } finally { fin }]: [fin] runs however [body] ends, and
    the completion of [body] stands unless [fin] ends abruptly. *)
Definition tryFinally {A} (body : M A) (fin : M unit) : M A :=
  fun env s =>
    match body env s with
    | mkResult o s1 l1 =>
        match fin env s1 with
        | mkResult (Normal _) s2 l2 => mkResult o s2 (l1 ++ l2)
        | mkResult (Throw e) s2 l2 => mkResult (Throw e) s2 (l1 ++ l2)
        | mkResult Return s2 l2 => mkResult Return s2 (l1 ++ l2)
        end
    end.

(** The body of a function: [return] ends the call normally. *)
Definition call (body : M unit) : M unit :=
  fun env s =>
    match body env s with
    | mkResult Return s1 l1 => mkResult (Normal tt) s1 l1
    | r => r
    end.

Definition when (b : bool) (m : M unit) : M unit :=
  if b then m else ret tt.

Definition modifyStore (f : Store -> Store) : M unit :=
  fun _ s => mkResult (Normal tt) (mkMachine (f (store s)) (fs s)) [].

Definition modifyFs (f : FileSystem -> FileSystem) : M unit :=
  fun _ s => mkResult (Normal tt) (mkMachine (store s) (f (fs s))) [].

Definition emit (e : Event) : M unit :=
  fun _ s => mkResult (Normal tt) s [e].

Definition asks {A} (f : Env -> A) : M A :=
  fun env s => mkResult (Normal (f env)) s [].

Definition readFs {A} (f : FileSystem -> A) : M A :=
  fun _ s => mkResult (Normal (f (fs s))) s [].

(** The [TypeError] of reading [message] off [null] or [undefined]; its
    text depends on the engine. *)
Definition typeError : Js.Error :=
  Js.mkError (Some (Js.lit "Cannot read property 'message' of undefined")).

(** [e.message], without optional chaining. *)
Definition readMessage (e : Js.Error) : M (option Js.str) :=
  match e with
  | Js.mkError m => ret m
  | Js.nullish => throw typeError
  end.

(** Reject with [e] when the environment says so. *)
Definition rejectWith (o : option Js.Error) : M unit :=
  match o with
  | Some e => throw e
  | None => ret tt
  end.

(* ------------------------------------------------------------------ *)
(** ** State setters *)

Definition setDownloadProgress (p : N * N) : M unit :=
  modifyStore (fun s => mkStore p (messages s) (inputMessage s) (error s)
                                (isProcessing s) (context s)).

Definition setMessages (ms : list Message) : M unit :=
  modifyStore (fun s => mkStore (downloadProgress s) ms (inputMessage s)
                                (error s) (isProcessing s) (context s)).

Definition setInputMessage (t : Js.str) : M unit :=
  modifyStore (fun s => mkStore (downloadProgress s) (messages s) t (error s)
                                (isProcessing s) (context s)).

Definition setError (m : Js.str) : M unit :=
  modifyStore (fun s => mkStore (downloadProgress s) (messages s)
                                (inputMessage s) (Some m) (isProcessing s)
                                (context s)).

Definition setIsProcessing (b : bool) : M unit :=
  modifyStore (fun s => mkStore (downloadProgress s) (messages s)
                                (inputMessage s) (error s) b (context s)).

Definition setContext (h : Handle) : M unit :=
  modifyStore (fun s => mkStore (downloadProgress s) (messages s)
                                (inputMessage s) (error s) (isProcessing s)
                                (Some h)).

(* ------------------------------------------------------------------ *)
(** ** The external collaborators *)

(** [FileSystem.getInfoAsync(p, {md5})], resolving to [info.exists]. *)
Definition getInfoAsync (p : Path) (md5 : bool) : M bool :=
  emit (EvGetInfo p md5) ;;
  err <- asks (fun env => getInfoError env p md5) ;;
  rejectWith err ;;
  readFs (fun fs => pathExists fs p).

(** [FileSystem.makeDirectoryAsync(modelDirectory, {intermediates: true})] *)
Definition makeDirectoryAsync : M unit :=
  emit (EvMakeDirectory ModelDirectory true) ;;
  err <- asks makeDirectoryError ;;
  rejectWith err ;;
  modifyFs (fun fs => mkFS true (fileExists fs)).

(** The progress callback handed to [createDownloadResumable]. *)
Fixpoint notifyProgress (ticks : list (N * N)) : M unit :=
  match ticks with
  | [] => ret tt
  | t :: rest => setDownloadProgress t ;; notifyProgress rest
  end.

(** [downloadResumable.downloadAsync()] *)
Definition downloadAsync : M unit :=
  emit (EvDownload MODEL_URL LocalModelPath) ;;
  ticks <- asks downloadTicks ;;
  notifyProgress ticks ;;
  o <- asks downloadOutcome ;;
  match o with
  | None => modifyFs (fun fs => mkFS (dirExists fs) true)
  | Some (e, partialLeft) =>
      modifyFs (fun fs => mkFS (dirExists fs) partialLeft) ;; throw e
  end.

Definition loadLlamaModelInfo (p : Path) : M unit :=
  emit (EvLoadLlamaModelInfo p) ;;
  err <- asks modelInfoError ;;
  rejectWith err.

Definition initLlama (cfg : LlamaConfig) : M Handle :=
  emit (EvInitLlama cfg) ;;
  r <- asks initLlamaResult ;;
  match r with
  | inl e => throw e
  | inr h => ret h
  end.

(** [context.completion(req, onToken)], resolving to [msgResult.text];
    the token callback of the source is empty. *)
Definition completion (h : Handle) (req : CompletionRequest) : M Js.str :=
  emit (EvCompletion h req) ;;
  r <- asks (fun env => completionResult env h req) ;;
  match r with
  | inl e => throw e
  | inr text => ret text
  end.

(* ------------------------------------------------------------------ *)
(** ** The handlers of [HomeScreen] *)

Definition initConfig : LlamaConfig :=
  {| model := LocalModelPath; use_mlock := true; n_ctx := 2048;
     n_gpu_layers := 0; use_progress_callback := true |}.

Definition timeoutMessage : Js.str :=
  Js.lit "Download timed out. Please check your internet connection and try again.".

(** [clearChat]: [AppIndex] also empties the input box. *)
Definition clearChat (v : Variant) : M unit :=
  call (setMessages [] ;;
        match v with
        | AppIndex => setInputMessage []
        | Part000 => ret tt
        end).

(** [async function loadModel()] *)
Definition loadModel : M unit :=
  call
    (tryFinally
       (tryCatch
          (setIsProcessing true ;;
           dirInfo <- getInfoAsync ModelDirectory false ;;
           when (negb dirInfo) makeDirectoryAsync ;;
           modelInfo <- getInfoAsync LocalModelPath false ;;
           when (negb modelInfo)
             (tryCatch
                downloadAsync
                (fun downloadError =>
                   if Js.messageIncludes downloadError (Js.lit "timed out")
                   then setError timeoutMessage ;;
                        setIsProcessing false ;;
                        return_
                   else throw downloadError) ;;
              _fileInfo <- getInfoAsync LocalModelPath true ;;
              ret tt) ;;
           loadLlamaModelInfo LocalModelPath ;;
           llamaContext <- initLlama initConfig ;;
           setContext llamaContext)
          (fun e =>
             message <- readMessage e ;;
             setError (Js.orElse message (Js.lit "Failed to load model"))))
       (setIsProcessing false)).

Definition systemPrompt (v : Variant) : Js.str :=
  match v with
  | AppIndex =>
      Js.lit "This is a conversation between user and assistant, an AI Therapist chatbot."
  | Part000 =>
      Js.lit "This is a conversation between user and assistant, a friendly chatbot."
  end.

Definition nPredict (v : Variant) : N :=
  match v with
  | AppIndex => 512
  | Part000 => 100
  end.

Definition stopSequences : list Js.str :=
  map Js.lit
    [ "</s>"; "<|end|>"; "<|eot_id|>"; "<|end_of_text|>"; "<|im_end|>";
      "<|EOT|>"; "<|END_OF_TURN_TOKEN|>"; "<end_of_turn>";
      "<end_of_turn><eos>"; "<|endoftext|>"; "<|end_of_text|>" ]%string.

Definition isNull {A} (o : option A) : bool :=
  match o with None => true | Some _ => false end.

(** [context.completion] on the captured [context]; reading a property of
    [null] throws a [TypeError]. *)
Definition completionOn (ctx : option Handle) (req : CompletionRequest) : M Js.str :=
  match ctx with
  | Some h => completion h req
  | None =>
      throw (Js.mkError (Some (Js.lit "Cannot read property 'completion' of null")))
  end.

(** [const sendMessage = async () => ...].  [c] holds the values of the
    state cells captured by the render that created the handler:
    [inputMessage], [isProcessing], [messages] and [context] are read from
    [c] on every line, also after [await loadModel()]. *)
Definition sendMessage (v : Variant) (c : Store) : M unit :=
  call
    (when (negb (Js.truthy (Js.trim (inputMessage c))) || isProcessing c) return_ ;;
     when (isNull (context c))
       (loadModel ;;
        when (isNull (context c)) return_) ;;
     let messageToSend := inputMessage c in
     let newMessages := messages c ++ [mkMessage user messageToSend] in
     setMessages newMessages ;;
     setInputMessage [] ;;
     tryFinally
       (tryCatch
          (setIsProcessing true ;;
           text <- completionOn (context c)
                     {| req_messages := mkMessage system (systemPrompt v) :: newMessages;
                        n_predict := nPredict v;
                        stop := stopSequences |} ;;
           let response := mkMessage assistant text in
           setMessages (newMessages ++ [response]))
          (fun e =>
             message <- readMessage e ;;
             setError (Js.orElse message (Js.lit "Failed to send message"))))
       (setIsProcessing false)).

(** The send button of a screen whose render is up to date: the handler
    captured the current store. *)
Definition onPress (v : Variant) : M unit :=
  fun env s => sendMessage v (store s) env s.

(** The user edits the input box ([onChangeText={setInputMessage}]). *)
Definition onChangeText (t : Js.str) : M unit := setInputMessage t.

(** Running one handler after another. *)
Definition andThen (r : Result unit) (m : M unit) (env : Env) : Result unit :=
  m env (final r).

(* ------------------------------------------------------------------ *)
(** ** Observations on a run *)

(** Everything but the completion call belongs to provisioning. *)
Definition isProvisioningEvent (e : Event) : bool :=
  match e with
  | EvCompletion _ _ => false
  | _ => true
  end.

Definition isDownload (e : Event) : bool :=
  match e with
  | EvDownload _ _ => true
  | _ => false
  end.

Definition isCompletion (e : Event) : bool :=
  match e with
  | EvCompletion _ _ => true
  | _ => false
  end.

Definition isEngineInit (e : Event) : bool :=
  match e with
  | EvInitLlama _ => true
  | _ => false
  end.

(** Number of network transfers started in a log. *)
Definition downloads (l : list Event) : nat := List.length (filter isDownload l).

(** The store after the progress notifications [ticks]. *)
Definition progressed (ticks : list (N * N)) (s : Store) : Store :=
  mkStore (last ticks (downloadProgress s)) (messages s) (inputMessage s)
          (error s) (isProcessing s) (context s).

(** The condition in front of [sendMessage]: [!inputMessage.trim() ||
    isProcessing]. *)
Definition guard (c : Store) : bool :=
  negb (Js.truthy (Js.trim (inputMessage c))) || isProcessing c.

(** The request [sendMessage] builds for the transcript [ms] and the
    input [t]. *)
Definition requestOf (v : Variant) (ms : list Message) (t : Js.str) : CompletionRequest :=
  {| req_messages := mkMessage system (systemPrompt v) :: ms ++ [mkMessage user t];
     n_predict := nPredict v;
     stop := stopSequences |}.

Definition isEngineEvent (e : Event) : bool :=
  match e with
  | EvLoadLlamaModelInfo _ | EvInitLlama _ => true
  | _ => false
  end.

(* ------------------------------------------------------------------ *)
(** ** Sessions *)

(** What the user can do on the screen. *)
Inductive Action :=
| Press                      (* the send button *)
| Clear                      (* the clear button of the header *)
| ChangeText (t : Js.str).   (* editing the input box *)

Definition handler (v : Variant) (a : Action) : M unit :=
  match a with
  | Press => onPress v
  | Clear => clearChat v
  | ChangeText t => onChangeText t
  end.

(** A session: the actions of the user, each with what the world answers
    while its handler runs; the screen is rendered again between two
    actions. *)
Fixpoint runSession (v : Variant) (history : list (Action * Env)) (s : Machine)
  : Machine :=
  match history with
  | [] => s
  | (a, env) :: rest => runSession v rest (final (handler v a env s))
  end.

(** The screen at launch, over the file system [disk]. *)
Definition atLaunch (disk : FileSystem) : Machine := mkMachine initialStore disk.

(** The error cell is empty or holds a non-empty message. *)
Definition errorWellFormed (st : Store) : Prop :=
  match error st with
  | Some m => m <> []
  | None => True
  end.

(* ------------------------------------------------------------------ *)
(** ** Sample worlds *)

(** Every external call succeeds; the engine is the stub of the spec's
    scenario and answers "I hear you.". *)
Definition stubWorld : Env :=
  {| getInfoError := fun _ _ => None;
     makeDirectoryError := None;
     downloadTicks := [(250000, 1000000); (500000, 1000000);
                       (750000, 1000000); (1000000, 1000000)]%N;
     downloadOutcome := None;
     modelInfoError := None;
     initLlamaResult := inr 7%N;
     completionResult := fun _ _ => inr (Js.lit "I hear you.") |}.

(** The engine rejects every completion request. *)
Definition failingEngine : Env :=
  {| getInfoError := fun _ _ => None;
     makeDirectoryError := None;
     downloadTicks := [];
     downloadOutcome := None;
     modelInfoError := None;
     initLlamaResult := inr 7%N;
     completionResult :=
       fun _ _ => inl (Js.mkError (Some (Js.lit "Context is busy"))) |}.

(** The engine rejects every completion request with the value [e]. *)
Definition engineRejecting (e : Js.Error) : Env :=
  {| getInfoError := fun _ _ => None;
     makeDirectoryError := None;
     downloadTicks := [];
     downloadOutcome := None;
     modelInfoError := None;
     initLlamaResult := inr 7%N;
     completionResult := fun _ _ => inl e |}.

(** The transfer stops with the error [e], leaving no file behind. *)
Definition brokenTransfer (e : Js.Error) : Env :=
  {| getInfoError := fun _ _ => None;
     makeDirectoryError := None;
     downloadTicks := [(250000, 1000000)]%N;
     downloadOutcome := Some (e, false);
     modelInfoError := None;
     initLlamaResult := inr 7%N;
     completionResult := fun _ _ => inr (Js.lit "I hear you.") |}.

Definition timedOut : Js.Error :=
  Js.mkError (Some (Js.lit "The request timed out.")).

Definition notFound : Js.Error :=
  Js.mkError (Some (Js.lit "Unable to resolve host")).

(** A freshly launched screen on a device without the model, with [t]
    typed into the input box. *)
Definition launched (t : Js.str) : Machine :=
  mkMachine (mkStore (0, 1)%N [] t None false None) (mkFS false false).

(** A screen whose engine is loaded, with the transcript [ms], the error
    banner [err] and [t] typed into the input box. *)
Definition loaded (ms : list Message) (err : option Js.str) (t : Js.str) : Machine :=
  mkMachine (mkStore (1000000, 1000000)%N ms t err false (Some 7%N))
            (mkFS true true).

(* ------------------------------------------------------------------ *)
(** ** The log of a session, and the shape of a transcript *)

(** The external calls of a whole session, in order. *)
Fixpoint sessionLog (v : Variant) (history : list (Action * Env)) (s : Machine)
  : list Event :=
  match history with
  | [] => []
  | (a, env) :: rest =>
      log (handler v a env s) ++ sessionLog v rest (final (handler v a env s))
  end.

(** A transcript as the screen builds it: no system turn, and every
    assistant turn comes right after a user turn.  [afterUser] tells
    whether the turn before the list is a user turn. *)
Fixpoint turnsOk (afterUser : bool) (ms : list Message) : bool :=
  match ms with
  | [] => true
  | m :: rest =>
      match role m with
      | user => turnsOk true rest
      | assistant => afterUser && turnsOk false rest
      | system => false
      end
  end.

Definition isSystemTurn (m : Message) : bool :=
  match role m with system => true | _ => false end.

(** No external call rejects with [null] or [undefined]. *)
Definition rejectsWithObjects (env : Env) : Prop :=
  (forall p md5, getInfoError env p md5 <> Some Js.nullish)
  /\ makeDirectoryError env <> Some Js.nullish
  /\ (forall partialLeft, downloadOutcome env <> Some (Js.nullish, partialLeft))
  /\ modelInfoError env <> Some Js.nullish
  /\ initLlamaResult env <> inl Js.nullish
  /\ (forall h req, completionResult env h req <> inl Js.nullish).

(** A stored handle comes with the model directory and file on disk. *)
Definition handleOnDisk (s : Machine) : Prop :=
  context (store s) = None
  \/ (dirExists (fs s) = true /\ fileExists (fs s) = true).

(* ------------------------------------------------------------------ *)
(** ** The quick replies of [ChatInput] in [app/index.tsx] *)

(** [a === b] on strings. *)
Fixpoint strictEq (a b : Js.str) : bool :=
  match a, b with
  | [], [] => true
  | x :: a', y :: b' => (x =? y)%N && strictEq a' b'
  | _, _ => false
  end.

(** [index.toString()] for an array index: its decimal digits. *)
Definition numberToString (n : N) : Js.str :=
  Js.lit (DecimalString.NilZero.string_of_uint (N.to_uint n)).

Definition therapyPrompts : list Js.str :=
  map Js.lit
    [ "I'm feeling stressed"; "Can't sleep"; "Need motivation";
      "Feeling lonely"; "Need calm thoughts"; "Stress relief";
      "Help me relax"; "Feeling down" ]%string.

(** An [ActionBubble]; its two [Animated.Value] fields only drive the
    press animation and are left out. *)
Record Bubble := mkBubble { bubble_id : Js.str; bubble_text : Js.str }.

(** [array.map((x, index) => f x index)], counting from [i]. *)
Fixpoint mapIndexed {A B} (f : A -> N -> B) (i : N) (l : list A) : list B :=
  match l with
  | [] => []
  | x :: rest => f x i :: mapIndexed f (N.succ i) rest
  end.

(** [therapyPrompts.slice(0, 5).map((text, index) => ({id: index.toString(), text}))] *)
Definition createBubbles : list Bubble :=
  mapIndexed (fun text index => mkBubble (numberToString index) text) 0%N
             (firstn 5 therapyPrompts).

(** The [useState] cells of [ChatInput]. *)
Record ChatInputState := mkChatInput {
  actionBubbles : list Bubble;
  showBubbles : bool;
  inputFocused : bool
}.

Definition chatInputInitial : ChatInputState :=
  {| actionBubbles := []; showBubbles := true; inputFocused := false |}.

(** The body of [useEffect(..., [showBubbles])]. *)
Definition bubblesEffect (ci : ChatInputState) : ChatInputState :=
  if showBubbles ci
  then mkChatInput createBubbles (showBubbles ci) (inputFocused ci)
  else ci.

(** The effect runs after the first render and after every render in
    which [showBubbles] has changed. *)
Definition chatInputMounted : ChatInputState := bubblesEffect chatInputInitial.

Definition afterRender (before after : ChatInputState) : ChatInputState :=
  if Bool.eqb (showBubbles before) (showBubbles after)
  then after
  else bubblesEffect after.

(** [showBubbles && !inputFocused]: the row of bubbles is on screen. *)
Definition bubblesVisible (ci : ChatInputState) : bool :=
  showBubbles ci && negb (inputFocused ci).

Definition handleInputFocus (ci : ChatInputState) : ChatInputState :=
  mkChatInput (actionBubbles ci) false true.

(** [handleBubblePress(bubbleId)].  [ci] and [c] are the cells of
    [ChatInput] and of [HomeScreen] captured by the render that created
    the handler; [sendMessage] is the handler of that same render.  The
    result is the new state of [ChatInput] and what runs on the screen's
    store. *)
Definition handleBubblePress (ci : ChatInputState) (c : Store) (bubbleId : Js.str)
  : ChatInputState * M unit :=
  match find (fun b => strictEq (bubble_id b) bubbleId) (actionBubbles ci) with
  | Some bubble =>
      (mkChatInput (actionBubbles ci) false (inputFocused ci),
       setInputMessage (bubble_text bubble) ;; sendMessage AppIndex c)
  | None => (ci, ret tt)
  end.

(** The whole screen of [app/index.tsx]. *)
Record Screen := mkScreen { chat : ChatInputState; machine : Machine }.

(** What the user can do on it. *)
Inductive UiAction :=
| OnScreen (a : Action)          (* send, clear, edit the input box *)
| FocusInput                     (* tap into the input box *)
| PressBubble (id : Js.str).     (* a quick-reply bubble, once its animation ends *)

(** One action on a screen whose render is up to date, and the render
    that follows it. *)
Definition uiStep (a : UiAction) (env : Env) (sc : Screen) : Screen :=
  match a with
  | OnScreen a' => mkScreen (chat sc) (final (handler AppIndex a' env (machine sc)))
  | FocusInput =>
      mkScreen (afterRender (chat sc) (handleInputFocus (chat sc))) (machine sc)
  | PressBubble id =>
      let '(ci, run) := handleBubblePress (chat sc) (store (machine sc)) id in
      mkScreen (afterRender (chat sc) ci) (final (run env (machine sc)))
  end.

Fixpoint runUi (history : list (UiAction * Env)) (sc : Screen) : Screen :=
  match history with
  | [] => sc
  | (a, env) :: rest => runUi rest (uiStep a env sc)
  end.

Definition screenAtLaunch (disk : FileSystem) : Screen :=
  mkScreen chatInputMounted (atLaunch disk).

(* ------------------------------------------------------------------ *)
(** ** Strings *)

Lemma trimStart_nil_iff (s : Js.str) :
  Js.trimStart s = [] <-> forallb Js.isWhiteSpace s = true.
Proof.
  induction s as [|c r IH]; simpl.
  - tauto.
  - destruct (Js.isWhiteSpace c); simpl.
    + exact IH.
    + split; discriminate.
Qed.

Lemma trimStart_head (s : Js.str) :
  match Js.trimStart s with
  | [] => True
  | c :: _ => Js.isWhiteSpace c = false
  end.
Proof.
  induction s as [|c r IH]; simpl.
  - exact I.
  - destruct (Js.isWhiteSpace c) eqn:E; [exact IH | exact E].
Qed.

Lemma forallb_rev {A} (f : A -> bool) (l : list A) :
  forallb f (rev l) = forallb f l.
Proof.
  induction l as [|a l IH]; simpl.
  - reflexivity.
  - rewrite forallb_app, IH. simpl. rewrite andb_true_r. apply andb_comm.
Qed.

(** [trim] leaves nothing exactly of the strings made of white space. *)
Lemma trim_nil_iff (s : Js.str) :
  Js.trim s = [] <-> forallb Js.isWhiteSpace s = true.
Proof.
  unfold Js.trim, Js.trimEnd. split.
  - intros H.
    assert (H1 : Js.trimStart (rev (Js.trimStart s)) = []).
    { destruct (Js.trimStart (rev (Js.trimStart s))) as [|x l]; [reflexivity|].
      simpl in H. destruct (rev l); discriminate. }
    apply trimStart_nil_iff in H1. rewrite forallb_rev in H1.
    apply trimStart_nil_iff.
    pose proof (trimStart_head s) as Hh.
    destruct (Js.trimStart s) as [|c r]; [reflexivity|].
    simpl in H1. rewrite Hh in H1. discriminate.
  - intros H. apply trimStart_nil_iff in H. rewrite H. reflexivity.
Qed.

Lemma guard_spec (c : Store) :
  guard c = true <->
  isProcessing c = true \/ forallb Js.isWhiteSpace (inputMessage c) = true.
Proof.
  unfold guard. rewrite orb_true_iff, <- trim_nil_iff.
  destruct (Js.trim (inputMessage c)); simpl; intuition congruence.
Qed.

Lemma orElse_truthy (m : option Js.str) (d : Js.str) :
  d <> [] -> Js.orElse m d <> [].
Proof.
  intros Hd. unfold Js.orElse. destruct m as [[|x l]|]; simpl; congruence.
Qed.

Lemma timeoutMessage_classified :
  Js.includes timeoutMessage (Js.lit "timed out") = true.
Proof. vm_compute. reflexivity. Qed.

(** A failure that is not classified as a timeout is never reported with
    the timeout text. *)
Lemma unclassified_message_differs (message : option Js.str) :
  Js.messageIncludes (Js.mkError message) (Js.lit "timed out") = false ->
  Js.orElse message (Js.lit "Failed to load model") <> timeoutMessage.
Proof.
  unfold Js.messageIncludes, Js.orElse. intros H.
  destruct message as [m|].
  - destruct (Js.truthy m).
    + intros ->. rewrite timeoutMessage_classified in H. discriminate.
    + vm_compute. discriminate.
  - vm_compute. discriminate.
Qed.

(* ------------------------------------------------------------------ *)
(** ** Running the collaborators *)

Lemma last_nonempty {A} (a : A) (l : list A) (d d' : A) :
  last (a :: l) d = last (a :: l) d'.
Proof.
  revert a. induction l as [|b l IH]; intros a.
  - reflexivity.
  - change (last (b :: l) d = last (b :: l) d'). apply IH.
Qed.

Lemma notifyProgress_run (ticks : list (N * N)) (env : Env) (s : Machine) :
  notifyProgress ticks env s
  = mkResult (Normal tt) (mkMachine (progressed ticks (store s)) (fs s)) [].
Proof.
  revert s. induction ticks as [|t rest IH]; intros [st f].
  - destruct st. reflexivity.
  - simpl notifyProgress. unfold bind. simpl. rewrite IH. simpl.
    unfold progressed. simpl.
    destruct rest as [|p rest]; [reflexivity|].
    rewrite (last_nonempty p rest t (downloadProgress st)). reflexivity.
Qed.

Lemma downloadAsync_run (env : Env) (s : Machine) :
  downloadAsync env s
  = match downloadOutcome env with
    | None =>
        mkResult (Normal tt)
          (mkMachine (progressed (downloadTicks env) (store s))
                     (mkFS (dirExists (fs s)) true))
          [EvDownload MODEL_URL LocalModelPath]
    | Some (e, partialLeft) =>
        mkResult (Throw e)
          (mkMachine (progressed (downloadTicks env) (store s))
                     (mkFS (dirExists (fs s)) partialLeft))
          [EvDownload MODEL_URL LocalModelPath]
    end.
Proof.
  unfold downloadAsync, bind, emit, asks. simpl.
  rewrite notifyProgress_run. simpl.
  destruct (downloadOutcome env) as [[e partialLeft]|]; reflexivity.
Qed.

Arguments downloadAsync : simpl never.
Arguments Js.lit : simpl never.
Arguments Js.orElse : simpl never.
Arguments Js.messageIncludes : simpl never.
Arguments Js.trim : simpl never.

(** Unfold one run of [loadModel] and follow every path through it. *)
Ltac step_run :=
  match goal with
  | |- context [downloadAsync ?env ?s] => rewrite (downloadAsync_run env s)
  | |- context [negb ?b] => destruct b eqn:?
  | |- context [match ?x with _ => _ end] =>
      lazymatch x with
      | context [match _ with _ => _ end] => fail
      | _ => destruct x eqn:?
      end
  | |- context [if ?x then _ else _] => destruct x eqn:?
  end.

Ltac run_loadModel :=
  unfold loadModel, call, tryFinally, tryCatch, bind, when, getInfoAsync,
    makeDirectoryAsync, loadLlamaModelInfo, initLlama, rejectWith, readMessage,
    emit, asks,
    readFs, modifyFs, modifyStore, setIsProcessing, setError, setContext,
    ret, throw, return_;
  cbn;
  repeat (step_run; cbn).

(** A run ends normally or with the [TypeError] of its [catch] block. *)
Lemma loadModel_outcome (env : Env) (s : Machine) :
  outcome (loadModel env s) = Normal tt
  \/ outcome (loadModel env s) = Throw typeError.
Proof. run_loadModel; auto. Qed.

Lemma loadModel_releases (env : Env) (s : Machine) :
  isProcessing (store (final (loadModel env s))) = false.
Proof. run_loadModel; reflexivity. Qed.

(** Provisioning touches neither the transcript nor the input box. *)
Lemma loadModel_frame (env : Env) (s : Machine) :
  messages (store (final (loadModel env s))) = messages (store s)
  /\ inputMessage (store (final (loadModel env s))) = inputMessage (store s).
Proof. run_loadModel; split; reflexivity. Qed.

(** The error cell is left alone or overwritten with a non-empty text. *)
Lemma loadModel_error (env : Env) (s : Machine) :
  error (store (final (loadModel env s))) = error (store s)
  \/ exists m, error (store (final (loadModel env s))) = Some m /\ m <> [].
Proof.
  run_loadModel;
    first [ left; reflexivity
          | right; eexists; split; [reflexivity|];
            first [ apply orElse_truthy; vm_compute; discriminate
                  | vm_compute; discriminate ] ].
Qed.

(** No path through [loadModel] issues a completion request. *)
Lemma loadModel_no_completion (env : Env) (s : Machine) :
  filter isCompletion (log (loadModel env s)) = [].
Proof. run_loadModel; reflexivity. Qed.


Arguments loadModel : simpl never.

(* ------------------------------------------------------------------ *)
(** ** The three ways through [sendMessage] *)

Ltac unfold_send :=
  unfold sendMessage, call, tryFinally, tryCatch, bind, when, completionOn,
    completion, readMessage, emit, asks, modifyStore, setMessages, setInputMessage,
    setIsProcessing, setError, ret, throw, return_.

(** The guard holds: nothing happens. *)
Lemma sendMessage_guarded (v : Variant) (c : Store) (env : Env) (s : Machine) :
  guard c = true ->
  sendMessage v c env s = mkResult (Normal tt) s [].
Proof.
  intros G. unfold_send. fold (guard c). rewrite G. reflexivity.
Qed.

(** No handle was captured: the call runs [loadModel] and returns, or
    rejects as [loadModel] did. *)
Lemma sendMessage_provisions (v : Variant) (c : Store) (env : Env) (s : Machine) :
  guard c = false ->
  context c = None ->
  sendMessage v c env s
  = mkResult (outcome (loadModel env s)) (final (loadModel env s))
             (log (loadModel env s)).
Proof.
  intros G C. unfold_send. fold (guard c). rewrite G, C. cbn.
  pose proof (loadModel_outcome env s) as O.
  destruct (loadModel env s) as [o f l]. cbn in *.
  destruct O; subst o; rewrite ?app_nil_r; reflexivity.
Qed.

(** A handle was captured: one completion request, then the reply or the
    error. *)
Lemma sendMessage_completes (v : Variant) (c : Store) (env : Env) (s : Machine)
      (h : Handle) :
  guard c = false ->
  context c = Some h ->
  sendMessage v c env s
  = let req := requestOf v (messages c) (inputMessage c) in
    let newMessages := messages c ++ [mkMessage user (inputMessage c)] in
    match completionResult env h req with
    | inr text =>
        mkResult (Normal tt)
          (mkMachine
             (mkStore (downloadProgress (store s))
                      (newMessages ++ [mkMessage assistant text]) []
                      (error (store s)) false (context (store s)))
             (fs s))
          [EvCompletion h req]
    | inl (Js.mkError message) =>
        mkResult (Normal tt)
          (mkMachine
             (mkStore (downloadProgress (store s)) newMessages []
                      (Some (Js.orElse message (Js.lit "Failed to send message")))
                      false (context (store s)))
             (fs s))
          [EvCompletion h req]
    | inl Js.nullish =>
        mkResult (Throw typeError)
          (mkMachine
             (mkStore (downloadProgress (store s)) newMessages []
                      (error (store s)) false (context (store s)))
             (fs s))
          [EvCompletion h req]
    end.
Proof.
  intros G C. unfold_send. fold (guard c). rewrite G, C. cbn.
  unfold requestOf.
  destruct (completionResult env h _) as [[message|]|text]; reflexivity.
Qed.

(** The three ways, for the handler of the current render. *)
Lemma onPress_ways (v : Variant) (env : Env) (s : Machine) :
  (guard (store s) = true /\ onPress v env s = mkResult (Normal tt) s [])
  \/ (guard (store s) = false /\ context (store s) = None
      /\ onPress v env s
         = mkResult (outcome (loadModel env s)) (final (loadModel env s))
                    (log (loadModel env s)))
  \/ (exists h, guard (store s) = false /\ context (store s) = Some h
      /\ onPress v env s = sendMessage v (store s) env s
      /\ log (onPress v env s)
         = [EvCompletion h (requestOf v (messages (store s)) (inputMessage (store s)))]).
Proof.
  unfold onPress.
  destruct (guard (store s)) eqn:G.
  - left. split; [reflexivity|]. now apply sendMessage_guarded.
  - right. destruct (context (store s)) as [h|] eqn:C.
    + right. exists h. repeat split.
      rewrite (sendMessage_completes v (store s) env s G C). cbn.
      destruct (completionResult env h _) as [[message|]|text]; reflexivity.
    + left. repeat split. now apply sendMessage_provisions.
Qed.

Lemma no_completion_not_in (l : list Event) (h : Handle) (req : CompletionRequest) :
  filter isCompletion l = [] -> ~ In (EvCompletion h req) l.
Proof.
  intros F Hin.
  assert (Hf : In (EvCompletion h req) (filter isCompletion l))
    by (apply filter_In; split; [exact Hin | reflexivity]).
  rewrite F in Hf. exact Hf.
Qed.

(** A completion request in the log of a press pins the way taken. *)
Lemma onPress_completion_inv (v : Variant) (env : Env) (s : Machine)
      (h : Handle) (req : CompletionRequest) :
  In (EvCompletion h req) (log (onPress v env s)) ->
  guard (store s) = false
  /\ context (store s) = Some h
  /\ req = requestOf v (messages (store s)) (inputMessage (store s)).
Proof.
  intros Hin.
  destruct (onPress_ways v env s) as [[G E]|[(G & C & E)|(h' & G & C & _ & L)]].
  - rewrite E in Hin. destruct Hin.
  - rewrite E in Hin. cbn in Hin.
    exfalso. exact (no_completion_not_in _ h req (loadModel_no_completion env s) Hin).
  - rewrite L in Hin. destruct Hin as [Hin|[]].
    injection Hin as <- <-. auto.
Qed.

Lemma guard_false (c : Store) :
  isProcessing c = false ->
  forallb Js.isWhiteSpace (inputMessage c) = false ->
  guard c = false.
Proof.
  intros P W. destruct (guard c) eqn:G; [|reflexivity].
  apply guard_spec in G. destruct G; congruence.
Qed.

(** A handler that captured no handle never reaches the completion call,
    whatever [loadModel] achieves. *)
Lemma send_without_captured_handle (v : Variant) (c : Store) (env : Env) (s : Machine) :
  context c = None ->
  filter isCompletion (log (sendMessage v c env s)) = [].
Proof.
  intros C. destruct (guard c) eqn:G.
  - rewrite (sendMessage_guarded v c env s G). reflexivity.
  - rewrite (sendMessage_provisions v c env s G C). cbn.
    apply loadModel_no_completion.
Qed.

(* ------------------------------------------------------------------ *)
(** ** The send path *)

(** C1, evaluated where it fails: on a freshly launched screen with
    "hello" typed and every external call succeeding, the press runs the
    whole provisioning (directory, transfer, metadata, engine
    initialisation) and stores the handle, then stops at
    [if (!context) return]: no completion request is issued, the
    transcript stays empty and the text stays in the input box. *)
Theorem first_press_provisions_but_sends_nothing :
  let r := onPress AppIndex stubWorld (launched (Js.lit "hello")) in
  context (store (final r)) = Some 7%N
  /\ log r = [ EvGetInfo ModelDirectory false;
               EvMakeDirectory ModelDirectory true;
               EvGetInfo LocalModelPath false;
               EvDownload MODEL_URL LocalModelPath;
               EvGetInfo LocalModelPath true;
               EvLoadLlamaModelInfo LocalModelPath;
               EvInitLlama initConfig ]
  /\ filter isCompletion (log r) = []
  /\ messages (store (final r)) = []
  /\ inputMessage (store (final r)) = Js.lit "hello".
Proof. vm_compute. repeat split. Qed.

(** C2: a press while [isProcessing] is true, or with an input box that
    is empty or holds white space only, is a no-op: the whole state
    (transcript, busy flag, error, and everything else) is unchanged and
    no external call is made. *)
Theorem send_guard_noop (v : Variant) (env : Env) (s : Machine) :
  isProcessing (store s) = true
  \/ forallb Js.isWhiteSpace (inputMessage (store s)) = true ->
  onPress v env s = mkResult (Normal tt) s [].
Proof.
  intros H. apply guard_spec in H. unfold onPress.
  now apply sendMessage_guarded.
Qed.

Lemma send_guard_noop_witness :
  (isProcessing (store (launched (Js.lit "   "))) = true
   \/ forallb Js.isWhiteSpace (inputMessage (store (launched (Js.lit "   ")))) = true)
  /\ onPress AppIndex stubWorld (launched (Js.lit "   "))
     = mkResult (Normal tt) (launched (Js.lit "   ")) [].
Proof.
  split.
  - right. reflexivity.
  - apply (send_guard_noop AppIndex stubWorld (launched (Js.lit "   "))).
    right. reflexivity.
Defined.

(** C3: a press with a handle at hand, not busy, with an input that is
    not blank, and whose completion call returns [text], leaves the
    transcript equal to the old one followed by the user turn holding the
    input and the assistant turn holding [text], and nothing else. *)
Theorem send_success_appends_two (v : Variant) (env : Env) (s : Machine)
        (h : Handle) (text : Js.str) :
  isProcessing (store s) = false ->
  forallb Js.isWhiteSpace (inputMessage (store s)) = false ->
  context (store s) = Some h ->
  completionResult env h (requestOf v (messages (store s)) (inputMessage (store s)))
  = inr text ->
  messages (store (final (onPress v env s)))
  = messages (store s)
      ++ [mkMessage user (inputMessage (store s)); mkMessage assistant text].
Proof.
  intros P W C R. unfold onPress.
  rewrite (sendMessage_completes v (store s) env s (guard_false _ P W) C).
  cbn. rewrite R. cbn. rewrite <- app_assoc. reflexivity.
Qed.

Lemma send_success_appends_two_witness :
  messages (store (final (onPress AppIndex stubWorld
                            (loaded [] None (Js.lit "I'm so stressed")))))
  = [mkMessage user (Js.lit "I'm so stressed");
     mkMessage assistant (Js.lit "I hear you.")].
Proof.
  apply (send_success_appends_two AppIndex stubWorld
           (loaded [] None (Js.lit "I'm so stressed")) (h := 7%N));
    reflexivity.
Defined.

(** C4 for a rejection that is an object: the transcript is the old one
    followed by the user turn only, the error cell holds the message of
    the rejection, or "Failed to send message" when it has none or an
    empty one, and [isProcessing] is false afterwards. *)
Lemma send_failure_keeps_user_turn (v : Variant) (env : Env) (s : Machine)
      (h : Handle) (message : option Js.str) :
  isProcessing (store s) = false ->
  forallb Js.isWhiteSpace (inputMessage (store s)) = false ->
  context (store s) = Some h ->
  completionResult env h (requestOf v (messages (store s)) (inputMessage (store s)))
  = inl (Js.mkError message) ->
  let r := onPress v env s in
  messages (store (final r))
  = messages (store s) ++ [mkMessage user (inputMessage (store s))]
  /\ (exists m, error (store (final r)) = Some m /\ m <> [])
  /\ isProcessing (store (final r)) = false
  /\ outcome r = Normal tt.
Proof.
  intros P W C R. unfold onPress.
  rewrite (sendMessage_completes v (store s) env s (guard_false _ P W) C).
  cbn. rewrite R. cbn. repeat split.
  eexists. split; [reflexivity|].
  apply orElse_truthy. vm_compute. discriminate.
Qed.

(** The [catch] block of [sendMessage] reads [e.message] of whatever was
    thrown: when the completion call rejects with [null] or [undefined]
    the read itself throws, so the user turn is appended and the busy
    flag released, but the error cell is left as it was and the call
    ends with the [TypeError]. *)
Lemma send_failure_nullish (v : Variant) (env : Env) (s : Machine) (h : Handle) :
  isProcessing (store s) = false ->
  forallb Js.isWhiteSpace (inputMessage (store s)) = false ->
  context (store s) = Some h ->
  completionResult env h (requestOf v (messages (store s)) (inputMessage (store s)))
  = inl Js.nullish ->
  let r := onPress v env s in
  messages (store (final r))
  = messages (store s) ++ [mkMessage user (inputMessage (store s))]
  /\ error (store (final r)) = error (store s)
  /\ isProcessing (store (final r)) = false
  /\ outcome r = Throw typeError.
Proof.
  intros P W C R. unfold onPress.
  rewrite (sendMessage_completes v (store s) env s (guard_false _ P W) C).
  cbn. rewrite R. cbn. repeat split.
Qed.

(** C4, evaluated where it fails: on a loaded screen with an empty error
    cell and "hello" typed, a completion call that rejects with
    [undefined] leaves the transcript with the user turn only and
    [isProcessing] false, but the error cell stays empty and the handler
    ends with an exception instead of returning. *)
Theorem send_rejected_with_undefined_records_no_error :
  let r := onPress AppIndex (engineRejecting Js.nullish)
                   (loaded [] None (Js.lit "hello")) in
  log r = [EvCompletion 7%N (requestOf AppIndex [] (Js.lit "hello"))]
  /\ messages (store (final r)) = [mkMessage user (Js.lit "hello")]
  /\ isProcessing (store (final r)) = false
  /\ error (store (final r)) = None
  /\ outcome r = Throw typeError.
Proof. vm_compute. repeat split. Qed.

(** C5: every completion request a press issues carries the system turn
    of the variant followed by the whole transcript and the user turn
    just appended, the token cap of the variant (512 in [app/index.tsx],
    100 in the other file) and the fixed list of stop sequences. *)
Theorem completion_request_shape (v : Variant) (env : Env) (s : Machine)
        (h : Handle) (req : CompletionRequest) :
  In (EvCompletion h req) (log (onPress v env s)) ->
  req_messages req
  = mkMessage system (systemPrompt v)
      :: (messages (store s) ++ [mkMessage user (inputMessage (store s))])
  /\ n_predict req = match v with AppIndex => 512%N | Part000 => 100%N end
  /\ stop req = stopSequences
  /\ log (onPress v env s) = [EvCompletion h req].
Proof.
  intros Hin.
  destruct (onPress_completion_inv v env s h req Hin) as (G & C & ->).
  split; [reflexivity|]. split; [destruct v; reflexivity|].
  split; [reflexivity|].
  destruct (onPress_ways v env s) as [[G' _]|[(_ & C' & _)|(h' & _ & C' & _ & L)]];
    congruence.
Qed.

Lemma completion_request_shape_witness :
  let s := loaded [mkMessage user (Js.lit "hi"); mkMessage assistant (Js.lit "Hello!")]
                  None (Js.lit "I'm so stressed") in
  let req := requestOf AppIndex (messages (store s)) (inputMessage (store s)) in
  In (EvCompletion 7%N req) (log (onPress AppIndex stubWorld s))
  /\ req_messages req
     = [mkMessage system (systemPrompt AppIndex);
        mkMessage user (Js.lit "hi"); mkMessage assistant (Js.lit "Hello!");
        mkMessage user (Js.lit "I'm so stressed")]
  /\ n_predict req = 512%N.
Proof.
  cbv zeta.
  assert (Hin : In (EvCompletion 7%N
                      (requestOf AppIndex
                         [mkMessage user (Js.lit "hi"); mkMessage assistant (Js.lit "Hello!")]
                         (Js.lit "I'm so stressed")))
                   (log (onPress AppIndex stubWorld
                           (loaded [mkMessage user (Js.lit "hi");
                                    mkMessage assistant (Js.lit "Hello!")]
                                   None (Js.lit "I'm so stressed")))))
    by (left; reflexivity).
  split; [exact Hin|].
  destruct (completion_request_shape AppIndex stubWorld _ _ _ Hin) as (Hm & Hn & _).
  split; [exact Hm | exact Hn].
Defined.

(* ------------------------------------------------------------------ *)
(** ** Provisioning *)

(** Whatever the world does, the engine is only ever initialised with the
    fixed configuration. *)
Lemma loadModel_init_config (env : Env) (s : Machine) (cfg : LlamaConfig) :
  In (EvInitLlama cfg) (log (loadModel env s)) -> cfg = initConfig.
Proof.
  run_loadModel; cbn; intros H;
    repeat (destruct H as [H|H]; [try discriminate; try (injection H as <-; reflexivity)|]);
    destruct H.
Qed.

(** C6: a run of [loadModel] that gets to a present model file (the
    directory and file checks succeed, and the file is there or the
    transfer and the check after it succeed) next reads the model
    metadata of the local file and then, when that read succeeds,
    initialises the engine with the fixed configuration: context window
    2048, memory lock on, no layer offloaded, progress callback on.
    These are the only calls to the engine in the run, in this order. *)
Theorem loadModel_reads_metadata_then_inits (env : Env) (s : Machine) :
  getInfoError env ModelDirectory false = None ->
  dirExists (fs s) = true \/ makeDirectoryError env = None ->
  getInfoError env LocalModelPath false = None ->
  fileExists (fs s) = true
  \/ (downloadOutcome env = None /\ getInfoError env LocalModelPath true = None) ->
  filter isEngineEvent (log (loadModel env s))
  = EvLoadLlamaModelInfo LocalModelPath
      :: match modelInfoError env with
         | None =>
             [EvInitLlama {| model := LocalModelPath; use_mlock := true;
                             n_ctx := 2048; n_gpu_layers := 0;
                             use_progress_callback := true |}]
         | Some _ => []
         end.
Proof.
  intros D MK F P.
  destruct env as [gi mk ticks dout mi il cr]; cbn in *.
  run_loadModel; try reflexivity; exfalso; intuition congruence.
Qed.

Lemma loadModel_reads_metadata_then_inits_witness :
  filter isEngineEvent (log (loadModel stubWorld (launched [])))
  = [EvLoadLlamaModelInfo LocalModelPath; EvInitLlama initConfig].
Proof.
  apply (loadModel_reads_metadata_then_inits stubWorld (launched []));
    first [ reflexivity | right; split; reflexivity | right; reflexivity ].
Defined.

(** C7 for a rejection that is an object: when [loadModel] starts the
    transfer and the transfer fails, exactly one transfer is started in
    that run (no retry), the engine is not initialised and no handle is
    stored; a failure whose message contains "timed out" is recorded as
    the timeout message, any other failure as its own message (or
    "Failed to load model" when it has none), which is non-empty and
    differs from the timeout message. *)
Lemma download_failure_reported (env : Env) (s : Machine)
      (message : option Js.str) (partialLeft : bool) :
  In (EvDownload MODEL_URL LocalModelPath) (log (loadModel env s)) ->
  downloadOutcome env = Some (Js.mkError message, partialLeft) ->
  let r := loadModel env s in
  downloads (log r) = 1
  /\ filter isEngineEvent (log r) = []
  /\ context (store (final r)) = context (store s)
  /\ isProcessing (store (final r)) = false
  /\ outcome r = Normal tt
  /\ (if Js.messageIncludes (Js.mkError message) (Js.lit "timed out")
      then error (store (final r)) = Some timeoutMessage
      else exists m,
          error (store (final r)) = Some m
          /\ m = Js.orElse message (Js.lit "Failed to load model")
          /\ m <> timeoutMessage
          /\ m <> []).
Proof.
  intros Hin Hout.
  destruct env as [gi mk ticks dout mi il cr]; cbn in Hout; subst dout.
  revert Hin. unfold downloads.
  run_loadModel; intros Hin;
    try (cbn in Hin; repeat (destruct Hin as [Hin|Hin]; [discriminate|]);
         destruct Hin).
  all: repeat split.
  all: eexists; split; [reflexivity|]; split; [reflexivity|]; split;
    [ now apply unclassified_message_differs
    | apply orElse_truthy; vm_compute; discriminate ].
Qed.

Lemma download_failure_reported_witness :
  let r := loadModel (brokenTransfer timedOut) (launched (Js.lit "hello")) in
  downloads (log r) = 1
  /\ filter isEngineEvent (log r) = []
  /\ context (store (final r)) = None
  /\ isProcessing (store (final r)) = false
  /\ outcome r = Normal tt
  /\ error (store (final r)) = Some timeoutMessage.
Proof.
  apply (download_failure_reported (brokenTransfer timedOut)
           (launched (Js.lit "hello"))
           (message := Some (Js.lit "The request timed out."))
           (partialLeft := false)).
  - vm_compute. tauto.
  - reflexivity.
Defined.

(** The inner [catch] of [loadModel] tests the rejection with optional
    chaining and rethrows [null] or [undefined] as any other failure; the
    outer [catch] then reads [e.message] without it, which throws.  So a
    transfer that rejects with [null] or [undefined] is not retried and
    no engine call follows, but the error cell is left as it was and the
    run ends with the [TypeError]. *)
Lemma download_failure_nullish (env : Env) (s : Machine) (partialLeft : bool) :
  In (EvDownload MODEL_URL LocalModelPath) (log (loadModel env s)) ->
  downloadOutcome env = Some (Js.nullish, partialLeft) ->
  let r := loadModel env s in
  downloads (log r) = 1
  /\ filter isEngineEvent (log r) = []
  /\ context (store (final r)) = context (store s)
  /\ isProcessing (store (final r)) = false
  /\ error (store (final r)) = error (store s)
  /\ outcome r = Throw typeError.
Proof.
  intros Hin Hout.
  destruct env as [gi mk ticks dout mi il cr]; cbn in Hout; subst dout.
  revert Hin. unfold downloads.
  run_loadModel; intros Hin;
    try (cbn in Hin; repeat (destruct Hin as [Hin|Hin]; [discriminate|]);
         destruct Hin).
  all: repeat split.
Qed.

(** C7, evaluated where it fails: on a freshly launched screen, a
    transfer that rejects with [undefined] is started once and followed
    by no engine call, but no error is recorded: the error cell stays
    empty and [loadModel] ends with an exception. *)
Theorem download_rejected_with_undefined_records_no_error :
  let r := loadModel (brokenTransfer Js.nullish) (launched (Js.lit "hello")) in
  log r = [ EvGetInfo ModelDirectory false;
            EvMakeDirectory ModelDirectory true;
            EvGetInfo LocalModelPath false;
            EvDownload MODEL_URL LocalModelPath ]
  /\ error (store (final r)) = None
  /\ context (store (final r)) = None
  /\ isProcessing (store (final r)) = false
  /\ outcome r = Throw typeError.
Proof. vm_compute. repeat split. Qed.

(** The other branch of C7, run: a transfer that fails without a timeout
    text is reported with the text of its own error. *)
Example download_failure_other_run :
  let r := loadModel (brokenTransfer notFound) (launched (Js.lit "hello")) in
  log r = [ EvGetInfo ModelDirectory false;
            EvMakeDirectory ModelDirectory true;
            EvGetInfo LocalModelPath false;
            EvDownload MODEL_URL LocalModelPath ]
  /\ error (store (final r)) = Some (Js.lit "Unable to resolve host")
  /\ context (store (final r)) = None.
Proof. vm_compute. repeat split. Qed.

(** A render that holds a handle never provisions: its press makes no
    call, or exactly the completion call on that handle. *)
Lemma press_with_handle (v : Variant) (env : Env) (s : Machine) (h : Handle) :
  context (store s) = Some h ->
  filter isProvisioningEvent (log (onPress v env s)) = []
  /\ (log (onPress v env s) = []
      \/ exists req, log (onPress v env s) = [EvCompletion h req]).
Proof.
  intros C.
  destruct (onPress_ways v env s) as [[_ E]|[(_ & C' & _)|(h' & _ & C' & _ & L)]].
  - rewrite E. cbn. auto.
  - congruence.
  - rewrite L. cbn. split; [reflexivity|]. right.
    replace h with h' by congruence. eauto.
Qed.

(* ------------------------------------------------------------------ *)
(** ** Reset *)

(** C8 as stated fails in the second variant: its [clearChat] is
    [setMessages([])] alone and leaves the text in the input box. *)
Lemma clearChat_part000_keeps_input :
  let s := loaded [mkMessage user (Js.lit "hi")] None (Js.lit "draft") in
  let r := clearChat Part000 stubWorld s in
  messages (store (final r)) = []
  /\ inputMessage (store (final r)) = Js.lit "draft"
  /\ inputMessage (store (final r)) <> [].
Proof. vm_compute. repeat split. discriminate. Qed.

(** C8, amended: in both variants [clearChat] empties the transcript and
    leaves the handle (and every other cell but the input box) as it
    was, so that a later press from a screen holding a handle runs no
    provisioning call; [app/index.tsx] also empties the input box, the
    other variant leaves it unchanged. *)
Theorem clearChat_resets (v : Variant) (env : Env) (s : Machine) :
  let r := clearChat v env s in
  messages (store (final r)) = []
  /\ inputMessage (store (final r))
     = match v with AppIndex => [] | Part000 => inputMessage (store s) end
  /\ context (store (final r)) = context (store s)
  /\ error (store (final r)) = error (store s)
  /\ isProcessing (store (final r)) = isProcessing (store s)
  /\ fs (final r) = fs s
  /\ log r = []
  /\ (forall h t env1 env2,
         context (store s) = Some h ->
         filter isProvisioningEvent
           (log (onPress v env2 (final (onChangeText t env1 (final r))))) = []).
Proof.
  destruct v; cbn; repeat split; intros h t env1 env2 C;
    apply (press_with_handle _ env2 _ (h := h)); exact C.
Qed.

Lemma clearChat_resets_witness :
  let s := loaded [mkMessage user (Js.lit "hi")] None (Js.lit "draft") in
  context (store s) = Some 7%N
  /\ filter isProvisioningEvent
       (log (onPress AppIndex stubWorld
               (final (onChangeText (Js.lit "hello") stubWorld
                         (final (clearChat AppIndex stubWorld s)))))) = [].
Proof.
  cbv zeta. split; [reflexivity|].
  destruct (clearChat_resets AppIndex stubWorld
              (loaded [mkMessage user (Js.lit "hi")] None (Js.lit "draft")))
    as (_ & _ & _ & _ & _ & _ & _ & H).
  apply (H 7%N). reflexivity.
Defined.

(* ------------------------------------------------------------------ *)
(** ** Provisioning twice *)



(* ------------------------------------------------------------------ *)
(** ** The error banner *)

(** A run of [loadModel] that stores a handle leaves the error cell as it
    was. *)
Lemma loadModel_success_keeps_error (env : Env) (s : Machine) :
  context (store (final (loadModel env s))) <> context (store s) ->
  error (store (final (loadModel env s))) = error (store s).
Proof.
  run_loadModel; intros H; solve [ reflexivity | exfalso; apply H; reflexivity ].
Qed.

(** A press leaves the error cell alone or overwrites it with a non-empty
    text; it never empties it. *)
Lemma onPress_error (v : Variant) (env : Env) (s : Machine) :
  error (store (final (onPress v env s))) = error (store s)
  \/ exists m, error (store (final (onPress v env s))) = Some m /\ m <> [].
Proof.
  destruct (onPress_ways v env s) as [[_ E]|[(_ & _ & E)|(h & G & C & E & _)]].
  - rewrite E. left. reflexivity.
  - rewrite E. cbn. apply loadModel_error.
  - rewrite E, (sendMessage_completes v (store s) env s G C). cbn.
    destruct (completionResult env h _) as [[message|]|text]; cbn.
    + right. eexists. split; [reflexivity|].
      apply orElse_truthy. vm_compute. discriminate.
    + left. reflexivity.
    + left. reflexivity.
Qed.

Lemma handler_error (v : Variant) (a : Action) (env : Env) (s : Machine) :
  errorWellFormed (store s) ->
  errorWellFormed (store (final (handler v a env s))).
Proof.
  unfold errorWellFormed. intros W. destruct a as [| |t].
  - destruct (onPress_error v env s) as [U|(m & U & N)]; cbn [handler].
    + rewrite U. exact W.
    + rewrite U. exact N.
  - destruct v; exact W.
  - exact W.
Qed.

(** In every state a session can reach, a message in the error cell is
    not empty. *)
Lemma runSession_error (v : Variant) (history : list (Action * Env)) (s : Machine) :
  errorWellFormed (store s) ->
  errorWellFormed (store (runSession v history s)).
Proof.
  revert s. induction history as [|[a env] rest IH]; intros s W.
  - exact W.
  - cbn [runSession]. apply IH. now apply handler_error.
Qed.

(** C10: in a state reached by a session from launch whose error cell
    holds a message [m] (set by some failure, since the cell starts
    empty), [m] is not empty, [clearChat] leaves it, a press whose
    completion call returns a reply leaves it, a press whose provisioning
    stores a handle leaves it, and whatever a press does the cell
    afterwards still holds a non-empty message. *)
Theorem lastError_sticky (v : Variant) (disk : FileSystem)
        (history : list (Action * Env)) (env : Env) (s : Machine) (m : Js.str) :
  s = runSession v history (atLaunch disk) ->
  error (store s) = Some m ->
  m <> []
  /\ error (store (final (clearChat v env s))) = Some m
  /\ (forall h text,
         isProcessing (store s) = false ->
         forallb Js.isWhiteSpace (inputMessage (store s)) = false ->
         context (store s) = Some h ->
         completionResult env h
           (requestOf v (messages (store s)) (inputMessage (store s))) = inr text ->
         error (store (final (onPress v env s))) = Some m)
  /\ (context (store (final (onPress v env s))) <> context (store s) ->
      error (store (final (onPress v env s))) = Some m)
  /\ (exists m', error (store (final (onPress v env s))) = Some m' /\ m' <> []).
Proof.
  intros Hs E.
  assert (NE : m <> []).
  { pose proof (runSession_error v history (atLaunch disk) I) as W.
    rewrite <- Hs in W. unfold errorWellFormed in W. rewrite E in W. exact W. }
  clear Hs. split; [exact NE|].
  split; [destruct v; exact E|]. split; [|split].
  - intros h text P W C R. unfold onPress.
    rewrite (sendMessage_completes v (store s) env s (guard_false _ P W) C).
    cbn. rewrite R. exact E.
  - intros Hc.
    destruct (onPress_ways v env s) as [[_ E1]|[(_ & _ & E1)|(h & G & C & E1 & _)]].
    + rewrite E1 in Hc. contradiction.
    + rewrite E1 in *. cbn in *. rewrite <- E.
      now apply loadModel_success_keeps_error.
    + exfalso. apply Hc. rewrite E1.
      rewrite (sendMessage_completes v (store s) env s G C). cbn.
      destruct (completionResult env h _) as [[?|]|?]; reflexivity.
  - destruct (onPress_error v env s) as [U|(m' & U & N)].
    + exists m. rewrite U. auto.
    + exists m'. auto.
Qed.

(** The session of the witness: type, press (the model is fetched and
    loaded), press again with an engine that rejects the request, type
    again. *)
Lemma lastError_sticky_witness :
  let history :=
    [ (ChangeText (Js.lit "hello"), stubWorld); (Press, stubWorld);
      (Press, failingEngine); (ChangeText (Js.lit "hello again"), stubWorld) ] in
  let s := runSession AppIndex history (atLaunch (mkFS false false)) in
  error (store s) = Some (Js.lit "Context is busy")
  /\ error (store (final (clearChat AppIndex stubWorld s)))
     = Some (Js.lit "Context is busy")
  /\ error (store (final (onPress AppIndex stubWorld s)))
     = Some (Js.lit "Context is busy")
  /\ messages (store (final (onPress AppIndex stubWorld s)))
     = [ mkMessage user (Js.lit "hello");
         mkMessage user (Js.lit "hello again");
         mkMessage assistant (Js.lit "I hear you.") ].
Proof.
  cbv zeta.
  split; [reflexivity|].
  destruct (lastError_sticky AppIndex (mkFS false false)
              [ (ChangeText (Js.lit "hello"), stubWorld); (Press, stubWorld);
                (Press, failingEngine);
                (ChangeText (Js.lit "hello again"), stubWorld) ]
              stubWorld eq_refl
              (m := Js.lit "Context is busy") eq_refl)
    as (_ & Hclear & Hsend & _).
  split; [exact Hclear|].
  split; [|reflexivity].
  apply (Hsend 7%N (Js.lit "I hear you.")); reflexivity.
Defined.

(* ------------------------------------------------------------------ *)
(** ** How the handlers end *)

(** The ways through [sendMessage] for any captured render. *)
Lemma sendMessage_ways (v : Variant) (c : Store) (env : Env) (s : Machine) :
  (guard c = true /\ sendMessage v c env s = mkResult (Normal tt) s [])
  \/ (guard c = false /\ context c = None
      /\ sendMessage v c env s
         = mkResult (outcome (loadModel env s)) (final (loadModel env s))
                    (log (loadModel env s)))
  \/ (exists h, guard c = false /\ context c = Some h
      /\ outcome (sendMessage v c env s)
         = match completionResult env h (requestOf v (messages c) (inputMessage c)) with
           | inl Js.nullish => Throw typeError
           | _ => Normal tt
           end
      /\ log (sendMessage v c env s)
         = [EvCompletion h (requestOf v (messages c) (inputMessage c))]
      /\ final (sendMessage v c env s)
         = mkMachine
             (mkStore (downloadProgress (store s))
                (match completionResult env h (requestOf v (messages c) (inputMessage c)) with
                 | inr text =>
                     messages c ++ [mkMessage user (inputMessage c);
                                    mkMessage assistant text]
                 | inl _ => messages c ++ [mkMessage user (inputMessage c)]
                 end)
                []
                (match completionResult env h (requestOf v (messages c) (inputMessage c)) with
                 | inl (Js.mkError message) =>
                     Some (Js.orElse message (Js.lit "Failed to send message"))
                 | _ => error (store s)
                 end)
                false (context (store s)))
             (fs s)).
Proof.
  destruct (guard c) eqn:G.
  - left. split; [reflexivity|]. now apply sendMessage_guarded.
  - right. destruct (context c) as [h|] eqn:C.
    + right. exists h. split; [reflexivity|]. split; [reflexivity|].
      rewrite (sendMessage_completes v c env s G C). cbn.
      destruct (completionResult env h _) as [[message|]|text]; cbn;
        rewrite <- ?app_assoc; auto.
    + left. repeat split. now apply sendMessage_provisions.
Qed.

Lemma loadModel_normal (env : Env) (s : Machine) :
  rejectsWithObjects env -> outcome (loadModel env s) = Normal tt.
Proof.
  intros (H1 & H2 & H3 & H4 & H5 & _).
  destruct env as [gi mk ticks dout mi il cr]. cbn in H1, H2, H3, H4, H5.
  run_loadModel;
    first [ reflexivity
          | exfalso;
            solve [ eapply H1; eassumption | congruence
                  | eapply H3; reflexivity ] ].
Qed.

(** X1: a handler ends with an exception only when an external call
    rejects with [null] or [undefined].  [loadModel] and [sendMessage]
    end normally or with the [TypeError] thrown by their [catch] block
    reading [e.message]; when every rejection is an object they end
    normally, whatever failed; [clearChat] always ends normally. *)
Theorem handlers_reject_only_on_nullish (v : Variant) (c : Store) (env : Env)
        (s : Machine) :
  (outcome (loadModel env s) = Normal tt
   \/ outcome (loadModel env s) = Throw typeError)
  /\ (outcome (sendMessage v c env s) = Normal tt
      \/ outcome (sendMessage v c env s) = Throw typeError)
  /\ outcome (clearChat v env s) = Normal tt
  /\ (rejectsWithObjects env ->
      outcome (loadModel env s) = Normal tt
      /\ outcome (sendMessage v c env s) = Normal tt).
Proof.
  split; [apply loadModel_outcome|].
  split; [|split; [destruct v; reflexivity|]].
  - destruct (sendMessage_ways v c env s) as [[_ E]|[(_ & _ & E)|(h & _ & _ & O & _)]].
    + rewrite E. auto.
    + rewrite E. apply loadModel_outcome.
    + rewrite O. destruct (completionResult env h _) as [[?|]|?]; auto.
  - intros R. split; [now apply loadModel_normal|].
    destruct (sendMessage_ways v c env s) as [[_ E]|[(_ & _ & E)|(h & _ & _ & O & _)]].
    + rewrite E. reflexivity.
    + rewrite E. cbn. now apply loadModel_normal.
    + rewrite O. destruct R as (_ & _ & _ & _ & _ & R).
      specialize (R h (requestOf v (messages c) (inputMessage c))).
      destruct (completionResult env h _) as [[?|]|?]; congruence.
Qed.

Lemma handlers_reject_only_on_nullish_witness :
  rejectsWithObjects (brokenTransfer notFound)
  /\ outcome (loadModel (brokenTransfer notFound) (launched (Js.lit "hello")))
     = Normal tt
  /\ outcome (sendMessage AppIndex (store (launched (Js.lit "hello")))
                          (brokenTransfer notFound) (launched (Js.lit "hello")))
     = Normal tt.
Proof.
  assert (R : rejectsWithObjects (brokenTransfer notFound))
    by (repeat split; intros; discriminate).
  split; [exact R|].
  destruct (handlers_reject_only_on_nullish AppIndex
              (store (launched (Js.lit "hello"))) (brokenTransfer notFound)
              (launched (Js.lit "hello"))) as (_ & _ & _ & H).
  exact (H R).
Defined.

(** [isProcessing] after [sendMessage]: untouched behind the guard,
    false otherwise. *)
Lemma sendMessage_busy (v : Variant) (c : Store) (env : Env) (s : Machine) :
  isProcessing (store (final (sendMessage v c env s)))
  = if guard c then isProcessing (store s) else false.
Proof.
  destruct (sendMessage_ways v c env s) as [[G E]|[(G & _ & E)|(h & G & _ & _ & _ & F)]];
    rewrite G.
  - rewrite E. reflexivity.
  - rewrite E. cbn. apply loadModel_releases.
  - rewrite F. reflexivity.
Qed.

Lemma handler_not_busy (v : Variant) (a : Action) (env : Env) (s : Machine) :
  isProcessing (store s) = false ->
  isProcessing (store (final (handler v a env s))) = false.
Proof.
  intros B. destruct a as [| |t]; cbn [handler].
  - unfold onPress. rewrite sendMessage_busy. now destruct (guard (store s)).
  - destruct v; exact B.
  - exact B.
Qed.

Lemma uiStep_not_busy (a : UiAction) (env : Env) (sc : Screen) :
  isProcessing (store (machine sc)) = false ->
  isProcessing (store (machine (uiStep a env sc))) = false.
Proof.
  intros B. destruct a as [a| |id]; cbn [uiStep].
  - cbn. now apply handler_not_busy.
  - exact B.
  - unfold handleBubblePress.
    destruct (find _ (actionBubbles (chat sc))) as [b|]; cbn; [|exact B].
    unfold bind, setInputMessage, modifyStore.
    pose proof (sendMessage_busy AppIndex (store (machine sc)) env
                  (mkMachine (mkStore (downloadProgress (store (machine sc)))
                                      (messages (store (machine sc)))
                                      (bubble_text b)
                                      (error (store (machine sc)))
                                      (isProcessing (store (machine sc)))
                                      (context (store (machine sc))))
                             (fs (machine sc)))) as H.
    destruct (sendMessage AppIndex (store (machine sc)) env _) as [o f l].
    cbn in *. destruct o; cbn; rewrite H;
      destruct (guard (store (machine sc))); auto.
Qed.

(** X2: the busy flag is always released.  In every state a session
    reaches from launch, in either variant and also with the quick-reply
    bubbles and the input focus of [app/index.tsx], [isProcessing] is
    false once the handler has run: whatever failed, the send button is
    enabled and the input box editable again. *)
Theorem session_never_left_busy (v : Variant) (disk : FileSystem)
        (history : list (Action * Env)) (ui : list (UiAction * Env)) :
  isProcessing (store (runSession v history (atLaunch disk))) = false
  /\ isProcessing (store (machine (runUi ui (screenAtLaunch disk)))) = false.
Proof.
  split.
  - assert (H : forall s, isProcessing (store s) = false ->
                          isProcessing (store (runSession v history s)) = false).
    { induction history as [|[a env] rest IH]; intros s B; [exact B|].
      cbn [runSession]. apply IH. now apply handler_not_busy. }
    now apply H.
  - assert (H : forall sc, isProcessing (store (machine sc)) = false ->
                           isProcessing (store (machine (runUi ui sc))) = false).
    { induction ui as [|[a env] rest IH]; intros sc B; [exact B|].
      cbn [runUi]. apply IH. now apply uiStep_not_busy. }
    now apply H.
Qed.

(* ------------------------------------------------------------------ *)
(** ** What provisioning leaves behind *)

(** X3: the three ways a run of [loadModel] ends.  It stores the handle
    that [initLlama] resolved to, after calling it with the fixed
    configuration, and leaves the error cell alone; or it leaves the
    handle cell as it was and puts a non-empty message in the error
    cell; or, when the failing call rejected with [null] or [undefined],
    it ends with the [TypeError] of its [catch] block and leaves both
    cells as they were.  When every rejection is an object the third
    way is excluded: then a failed provisioning always shows a
    message. *)
Theorem loadModel_handle_or_error (env : Env) (s : Machine) :
  let r := loadModel env s in
  ((exists h, initLlamaResult env = inr h
              /\ context (store (final r)) = Some h
              /\ error (store (final r)) = error (store s)
              /\ In (EvInitLlama initConfig) (log r)
              /\ outcome r = Normal tt)
   \/ (context (store (final r)) = context (store s)
       /\ outcome r = Normal tt
       /\ exists m, error (store (final r)) = Some m /\ m <> [])
   \/ (context (store (final r)) = context (store s)
       /\ error (store (final r)) = error (store s)
       /\ outcome r = Throw typeError))
  /\ (rejectsWithObjects env -> outcome r = Normal tt).
Proof.
  cbv zeta. split; [|apply loadModel_normal].
  destruct env as [gi mk ticks dout mi il cr]. cbn [initLlamaResult].
  run_loadModel;
    first [ solve [right; right; repeat split]
          | right; left; split; [reflexivity|]; split; [reflexivity|];
            eexists; split; [reflexivity|];
            first [ apply orElse_truthy; vm_compute; discriminate
                  | vm_compute; discriminate ]
          | left; eexists; split; [reflexivity|]; split; [reflexivity|];
            split; [reflexivity|]; split; [cbn; tauto | reflexivity] ].
Qed.

Lemma loadModel_handle_or_error_witness :
  rejectsWithObjects (brokenTransfer notFound)
  /\ outcome (loadModel (brokenTransfer notFound) (launched (Js.lit "hello")))
     = Normal tt.
Proof.
  assert (R : rejectsWithObjects (brokenTransfer notFound))
    by (repeat split; intros; discriminate).
  split; [exact R|].
  exact (proj2 (loadModel_handle_or_error (brokenTransfer notFound)
                  (launched (Js.lit "hello"))) R).
Defined.

(** A run that changes the handle cell leaves the model directory and the
    model file on the disk. *)
Lemma loadModel_handle_on_disk (env : Env) (s : Machine) :
  context (store (final (loadModel env s))) = context (store s)
  \/ (dirExists (fs (final (loadModel env s))) = true
      /\ fileExists (fs (final (loadModel env s))) = true).
Proof.
  destruct s as [st [d f]].
  run_loadModel; first [ left; reflexivity | right; split; reflexivity ].
Qed.

Lemma handler_handleOnDisk (v : Variant) (a : Action) (env : Env) (s : Machine) :
  handleOnDisk s -> handleOnDisk (final (handler v a env s)).
Proof.
  unfold handleOnDisk. intros H. destruct a as [| |t]; cbn [handler].
  - unfold onPress.
    destruct (sendMessage_ways v (store s) env s)
      as [[_ E]|[(_ & C & E)|(h & _ & _ & _ & _ & F)]].
    + rewrite E. exact H.
    + rewrite E. cbn.
      destruct (loadModel_handle_on_disk env s) as [K|K]; [|now right].
      left. congruence.
    + rewrite F. exact H.
  - destruct v; exact H.
  - exact H.
Qed.

(** X4: a handle is only ever held over a model that is on the disk.  In
    every state a session reaches from launch, over any initial disk, a
    stored handle implies that the model directory and the model file
    exist (the world deleting nothing between two actions). *)
Theorem session_handle_on_disk (v : Variant) (disk : FileSystem)
        (history : list (Action * Env)) (h : Handle) :
  context (store (runSession v history (atLaunch disk))) = Some h ->
  dirExists (fs (runSession v history (atLaunch disk))) = true
  /\ fileExists (fs (runSession v history (atLaunch disk))) = true.
Proof.
  assert (H : forall s, handleOnDisk s -> handleOnDisk (runSession v history s)).
  { induction history as [|[a env] rest IH]; intros s K; [exact K|].
    cbn [runSession]. apply IH. now apply handler_handleOnDisk. }
  intros C. destruct (H (atLaunch disk)) as [K|K].
  - left. reflexivity.
  - congruence.
  - exact K.
Qed.

Lemma session_handle_on_disk_witness :
  let history := [ (ChangeText (Js.lit "hello"), stubWorld); (Press, stubWorld) ] in
  let s := runSession Part000 history (atLaunch (mkFS false false)) in
  context (store s) = Some 7%N
  /\ dirExists (fs s) = true
  /\ fileExists (fs s) = true.
Proof.
  cbv zeta. split; [reflexivity|].
  apply (session_handle_on_disk Part000 (mkFS false false)
           [ (ChangeText (Js.lit "hello"), stubWorld); (Press, stubWorld) ]
           (h := 7%N)).
  reflexivity.
Defined.

(** With a handle in the store, a handler keeps the handle and the disk
    and makes no provisioning call. *)
Lemma handler_with_handle (v : Variant) (a : Action) (env : Env) (s : Machine)
      (h : Handle) :
  context (store s) = Some h ->
  context (store (final (handler v a env s))) = Some h
  /\ fs (final (handler v a env s)) = fs s
  /\ filter isProvisioningEvent (log (handler v a env s)) = []
  /\ (forall h' req, In (EvCompletion h' req) (log (handler v a env s)) -> h' = h).
Proof.
  intros C. destruct a as [| |t]; cbn [handler].
  - unfold onPress.
    destruct (sendMessage_ways v (store s) env s)
      as [[_ E]|[(_ & C' & _)|(h1 & _ & C' & _ & L & F)]].
    + rewrite E. cbn. repeat split; auto. intros ? ? [].
    + congruence.
    + rewrite L, F. cbn. repeat split; auto.
      intros h' req [K|[]]. congruence.
  - destruct v; cbn; repeat split; auto; intros ? ? [].
  - cbn. repeat split; auto. intros ? ? [].
Qed.

(** X5: the handle is obtained once and for all.  From a state that holds
    a handle, no session replaces or drops it, touches the disk or makes
    any provisioning call (no file check, no transfer, no metadata read,
    no engine initialisation), and every completion request of the
    session goes to that handle. *)
Theorem session_keeps_handle (v : Variant) (history : list (Action * Env))
        (s : Machine) (h : Handle) :
  context (store s) = Some h ->
  context (store (runSession v history s)) = Some h
  /\ fs (runSession v history s) = fs s
  /\ filter isProvisioningEvent (sessionLog v history s) = []
  /\ (forall h' req, In (EvCompletion h' req) (sessionLog v history s) -> h' = h).
Proof.
  revert s. induction history as [|[a env] rest IH]; intros s C.
  - cbn. repeat split; auto. intros ? ? [].
  - cbn [runSession sessionLog].
    destruct (handler_with_handle v a env s C) as (C1 & F1 & P1 & H1).
    destruct (IH _ C1) as (C2 & F2 & P2 & H2).
    split; [exact C2|]. split; [congruence|]. split.
    + rewrite filter_app, P1, P2. reflexivity.
    + intros h' req Hin. apply in_app_or in Hin. destruct Hin; eauto.
Qed.

Lemma session_keeps_handle_witness :
  let history :=
    [ (Press, failingEngine); (Clear, stubWorld);
      (ChangeText (Js.lit "hello again"), stubWorld); (Press, stubWorld) ] in
  let s := loaded [] None (Js.lit "hello") in
  context (store (runSession AppIndex history s)) = Some 7%N
  /\ fs (runSession AppIndex history s) = fs s
  /\ filter isProvisioningEvent (sessionLog AppIndex history s) = []
  /\ List.length (sessionLog AppIndex history s) = 2.
Proof.
  cbv zeta.
  destruct (session_keeps_handle AppIndex
              [ (Press, failingEngine); (Clear, stubWorld);
                (ChangeText (Js.lit "hello again"), stubWorld); (Press, stubWorld) ]
              (loaded [] None (Js.lit "hello")) (h := 7%N) eq_refl)
    as (C & F & P & _).
  split; [exact C|]. split; [exact F|]. split; [exact P|]. reflexivity.
Defined.

(** X10: a failure to create the model directory ends the run on the
    spot.  When the directory is absent and [makeDirectoryAsync] rejects,
    the run has made the directory check and the creation attempt and
    nothing else (no file check, no transfer, no engine call); handle and
    disk are as before and the busy flag is released.  If the rejection
    is an object, the error cell holds its message, or "Failed to load
    model" when it has none or an empty one, and the run ends normally;
    if it is [null] or [undefined], the error cell is left as it was and
    the run ends with the [TypeError]. *)
Theorem mkdir_failure_is_fatal (env : Env) (s : Machine) (e : Js.Error) :
  dirExists (fs s) = false ->
  getInfoError env ModelDirectory false = None ->
  makeDirectoryError env = Some e ->
  let r := loadModel env s in
  log r = [EvGetInfo ModelDirectory false; EvMakeDirectory ModelDirectory true]
  /\ context (store (final r)) = context (store s)
  /\ fs (final r) = fs s
  /\ isProcessing (store (final r)) = false
  /\ match e with
     | Js.mkError message =>
         error (store (final r))
         = Some (Js.orElse message (Js.lit "Failed to load model"))
         /\ outcome r = Normal tt
     | Js.nullish =>
         error (store (final r)) = error (store s)
         /\ outcome r = Throw typeError
     end.
Proof.
  intros D G MK.
  destruct s as [st [d f]]. destruct env as [gi mk ticks dout mi il cr].
  cbn in D, G, MK. subst d mk.
  run_loadModel; first [ congruence | repeat split ].
Qed.

Lemma mkdir_failure_is_fatal_witness :
  let env := mkEnv (fun _ _ => None)
                   (Some (Js.mkError (Some (Js.lit "No space left on device"))))
                   [] None None (inr 7%N)
                   (fun _ _ => inr (Js.lit "I hear you.")) in
  let r := loadModel env (launched (Js.lit "hello")) in
  log r = [EvGetInfo ModelDirectory false; EvMakeDirectory ModelDirectory true]
  /\ context (store (final r)) = None
  /\ fs (final r) = mkFS false false
  /\ isProcessing (store (final r)) = false
  /\ error (store (final r)) = Some (Js.lit "No space left on device")
  /\ outcome r = Normal tt.
Proof.
  cbv zeta.
  apply (mkdir_failure_is_fatal
           (mkEnv (fun _ _ => None)
                  (Some (Js.mkError (Some (Js.lit "No space left on device"))))
                  [] None None (inr 7%N)
                  (fun _ _ => inr (Js.lit "I hear you.")))
           (launched (Js.lit "hello"))
           (e := Js.mkError (Some (Js.lit "No space left on device"))));
    reflexivity.
Defined.

(* ------------------------------------------------------------------ *)
(** ** The transcript over a session *)

(** X6: a press changes the transcript and the input box together or not
    at all.  Either it issues no completion request and leaves both as
    they were; or it issues exactly one, on the stored handle, the input
    box ends empty, and the transcript is the old one followed by the
    user turn holding the input and, exactly when the call returned a
    text, the assistant turn holding that text.  No earlier turn is ever
    removed or changed. *)
Theorem press_appends_or_nothing (v : Variant) (env : Env) (s : Machine) :
  let r := onPress v env s in
  let req := requestOf v (messages (store s)) (inputMessage (store s)) in
  (filter isCompletion (log r) = []
   /\ messages (store (final r)) = messages (store s)
   /\ inputMessage (store (final r)) = inputMessage (store s))
  \/ (exists h,
        context (store s) = Some h
        /\ log r = [EvCompletion h req]
        /\ inputMessage (store (final r)) = []
        /\ messages (store (final r))
           = messages (store s)
               ++ mkMessage user (inputMessage (store s))
               :: match completionResult env h req with
                  | inr text => [mkMessage assistant text]
                  | inl _ => []
                  end).
Proof.
  cbv zeta. unfold onPress.
  destruct (sendMessage_ways v (store s) env s)
    as [[_ E]|[(_ & _ & E)|(h & _ & C & _ & L & F)]].
  - left. rewrite E. auto.
  - left. rewrite E. cbn. split; [apply loadModel_no_completion|].
    apply loadModel_frame.
  - right. exists h. rewrite L, F. cbn.
    destruct (completionResult env h _); auto.
Qed.

Lemma turnsOk_app_user (b : bool) (ms : list Message) (t : Js.str) :
  turnsOk b ms = true -> turnsOk b (ms ++ [mkMessage user t]) = true.
Proof.
  revert b. induction ms as [|m rest IH]; intros b H; [reflexivity|].
  cbn in *. destruct (role m).
  - now apply IH.
  - apply andb_true_iff in H. destruct H as [-> H]. cbn. now apply IH.
  - discriminate.
Qed.

Lemma turnsOk_app_round (b : bool) (ms : list Message) (t text : Js.str) :
  turnsOk b ms = true ->
  turnsOk b (ms ++ [mkMessage user t; mkMessage assistant text]) = true.
Proof.
  revert b. induction ms as [|m rest IH]; intros b H; [reflexivity|].
  cbn in *. destruct (role m).
  - now apply IH.
  - apply andb_true_iff in H. destruct H as [-> H]. cbn. now apply IH.
  - discriminate.
Qed.

Lemma turnsOk_no_system (b : bool) (ms : list Message) :
  turnsOk b ms = true -> filter isSystemTurn ms = [].
Proof.
  revert b. induction ms as [|m rest IH]; intros b H; [reflexivity|].
  cbn in *. unfold isSystemTurn at 1. destruct (role m).
  - now apply IH with (b := true).
  - apply andb_true_iff in H. destruct H as [_ H]. now apply IH with (b := false).
  - discriminate.
Qed.

Lemma handler_turnsOk (v : Variant) (a : Action) (env : Env) (s : Machine) :
  turnsOk false (messages (store s)) = true ->
  turnsOk false (messages (store (final (handler v a env s)))) = true.
Proof.
  intros H. destruct a as [| |t]; cbn [handler].
  - unfold onPress.
    destruct (sendMessage_ways v (store s) env s)
      as [[_ E]|[(_ & _ & E)|(h & _ & _ & _ & _ & F)]].
    + rewrite E. exact H.
    + rewrite E. cbn. destruct (loadModel_frame env s) as [-> _]. exact H.
    + rewrite F. cbn. destruct (completionResult env h _).
      * now apply turnsOk_app_user.
      * now apply turnsOk_app_round.
  - destruct v; reflexivity.
  - exact H.
Qed.

Lemma runSession_turnsOk (v : Variant) (history : list (Action * Env)) (s : Machine) :
  turnsOk false (messages (store s)) = true ->
  turnsOk false (messages (store (runSession v history s))) = true.
Proof.
  revert s. induction history as [|[a env] rest IH]; intros s H; [exact H|].
  cbn [runSession]. apply IH. now apply handler_turnsOk.
Qed.

(** X7: the shape of the transcript.  In every state a session reaches
    from launch the transcript holds no system turn, and each assistant
    turn stands right after a user turn: user turns may go unanswered
    (a failed round), but there is never a reply without its question
    nor two replies in a row. *)
Theorem session_transcript_shape (v : Variant) (disk : FileSystem)
        (history : list (Action * Env)) :
  turnsOk false (messages (store (runSession v history (atLaunch disk)))) = true
  /\ filter isSystemTurn (messages (store (runSession v history (atLaunch disk)))) = [].
Proof.
  assert (H : turnsOk false
                (messages (store (runSession v history (atLaunch disk)))) = true)
    by (now apply runSession_turnsOk).
  split; [exact H|]. now apply turnsOk_no_system with (b := false).
Qed.

Lemma sessionLog_requests (v : Variant) (history : list (Action * Env)) (s : Machine)
      (h : Handle) (req : CompletionRequest) :
  turnsOk false (messages (store s)) = true ->
  In (EvCompletion h req) (sessionLog v history s) ->
  exists ms t,
    req = requestOf v ms t /\ turnsOk false ms = true.
Proof.
  revert s. induction history as [|[a env] rest IH]; intros s H Hin; [destruct Hin|].
  cbn [sessionLog] in Hin. apply in_app_or in Hin. destruct Hin as [Hin|Hin].
  - destruct a as [| |t]; cbn [handler] in Hin.
    + destruct (onPress_completion_inv v env s h req Hin) as (_ & _ & ->). eauto.
    + destruct v; destruct Hin.
    + destruct Hin.
  - apply (IH _ (handler_turnsOk v a env s H) Hin).
Qed.

(** X9: what the engine is sent over a session.  Every completion request
    of a session from launch is the system turn of the variant followed
    by a well-shaped transcript that ends with a user turn: the system
    turn occurs exactly once, at the head, and the token cap and stop
    list are those of the variant. *)
Theorem session_requests_shape (v : Variant) (disk : FileSystem)
        (history : list (Action * Env)) (h : Handle) (req : CompletionRequest) :
  In (EvCompletion h req) (sessionLog v history (atLaunch disk)) ->
  exists ms t,
    req_messages req = mkMessage system (systemPrompt v) :: ms ++ [mkMessage user t]
    /\ turnsOk false (ms ++ [mkMessage user t]) = true
    /\ filter isSystemTurn (req_messages req) = [mkMessage system (systemPrompt v)]
    /\ n_predict req = nPredict v
    /\ stop req = stopSequences.
Proof.
  intros Hin.
  destruct (sessionLog_requests v history (atLaunch disk) h req eq_refl Hin)
    as (ms & t & -> & H).
  exists ms, t. cbn.
  pose proof (turnsOk_app_user false ms t H) as H'.
  repeat split; [exact H'|].
  f_equal. now apply turnsOk_no_system with (b := false).
Qed.

Lemma session_requests_shape_witness :
  let history :=
    [ (ChangeText (Js.lit "hello"), stubWorld); (Press, stubWorld);
      (Press, failingEngine); (ChangeText (Js.lit "hello again"), stubWorld);
      (Press, stubWorld) ] in
  let req := requestOf AppIndex [mkMessage user (Js.lit "hello")] (Js.lit "hello again") in
  In (EvCompletion 7%N req) (sessionLog AppIndex history (atLaunch (mkFS false false)))
  /\ exists ms t,
      req_messages req
      = mkMessage system (systemPrompt AppIndex) :: ms ++ [mkMessage user t]
      /\ turnsOk false (ms ++ [mkMessage user t]) = true
      /\ filter isSystemTurn (req_messages req)
         = [mkMessage system (systemPrompt AppIndex)]
      /\ n_predict req = nPredict AppIndex
      /\ stop req = stopSequences.
Proof.
  cbv zeta.
  assert (Hin : In (EvCompletion 7%N
                      (requestOf AppIndex [mkMessage user (Js.lit "hello")]
                                 (Js.lit "hello again")))
                   (sessionLog AppIndex
                      [ (ChangeText (Js.lit "hello"), stubWorld); (Press, stubWorld);
                        (Press, failingEngine);
                        (ChangeText (Js.lit "hello again"), stubWorld);
                        (Press, stubWorld) ]
                      (atLaunch (mkFS false false)))).
  { vm_compute. do 8 right. left. reflexivity. }
  split; [exact Hin|].
  exact (session_requests_shape AppIndex (mkFS false false) _ _ _ Hin).
Defined.

(** The request of a press that gets through the guard with a handle. *)
Lemma press_request (v : Variant) (env : Env) (s : Machine) (h : Handle) :
  isProcessing (store s) = false ->
  forallb Js.isWhiteSpace (inputMessage (store s)) = false ->
  context (store s) = Some h ->
  log (onPress v env s)
  = [EvCompletion h (requestOf v (messages (store s)) (inputMessage (store s)))].
Proof.
  intros P W C. pose proof (guard_false _ P W) as G.
  destruct (onPress_ways v env s) as [[G' _]|[(_ & C' & _)|(h' & _ & C' & _ & L)]];
    congruence.
Qed.

(** X8: the conversation is replayed in order.  After a round that got
    the reply [text1], the request of the next round carries the
    messages of the first request followed by the assistant turn holding
    [text1] and the new user turn, and nothing else. *)
Theorem next_round_replays_history (v : Variant) (env1 env2 : Env) (s : Machine)
        (h : Handle) (text1 input2 : Js.str) :
  isProcessing (store s) = false ->
  forallb Js.isWhiteSpace (inputMessage (store s)) = false ->
  context (store s) = Some h ->
  completionResult env1 h
    (requestOf v (messages (store s)) (inputMessage (store s))) = inr text1 ->
  forallb Js.isWhiteSpace input2 = false ->
  let req1 := requestOf v (messages (store s)) (inputMessage (store s)) in
  let s1 := final (onPress v env1 s) in
  let s2 := final (onChangeText input2 env1 s1) in
  exists req2,
    log (onPress v env2 s2) = [EvCompletion h req2]
    /\ req_messages req2
       = req_messages req1 ++ [mkMessage assistant text1; mkMessage user input2]
    /\ n_predict req2 = n_predict req1
    /\ stop req2 = stop req1.
Proof.
  intros P W C R W2. cbv zeta.
  eexists. split.
  - apply press_request.
    + cbn. unfold onPress. rewrite sendMessage_busy.
      now destruct (guard (store s)).
    + exact W2.
    + cbn. unfold onPress.
      rewrite (sendMessage_completes v (store s) env1 s (guard_false _ P W) C).
      cbn. rewrite R. exact C.
  - cbn. unfold onPress.
    rewrite (sendMessage_completes v (store s) env1 s (guard_false _ P W) C).
    cbn. rewrite R. cbn. rewrite <- !app_assoc. auto.
Qed.

Lemma next_round_replays_history_witness :
  let s := loaded [] None (Js.lit "I'm so stressed") in
  let s1 := final (onPress Part000 stubWorld s) in
  let s2 := final (onChangeText (Js.lit "Can't sleep") stubWorld s1) in
  exists req2,
    log (onPress Part000 stubWorld s2) = [EvCompletion 7%N req2]
    /\ req_messages req2
       = [ mkMessage system (systemPrompt Part000);
           mkMessage user (Js.lit "I'm so stressed");
           mkMessage assistant (Js.lit "I hear you.");
           mkMessage user (Js.lit "Can't sleep") ].
Proof.
  cbv zeta.
  destruct (@next_round_replays_history Part000 stubWorld stubWorld
              (loaded [] None (Js.lit "I'm so stressed")) 7%N
              (Js.lit "I hear you.") (Js.lit "Can't sleep")
              eq_refl eq_refl eq_refl eq_refl eq_refl)
    as (req2 & L & Ms & _).
  exists req2. split; [exact L | exact Ms].
Defined.

(* ------------------------------------------------------------------ *)
(** ** The quick-reply bubbles *)

(** The five bubbles are found again by their ids. *)
Lemma createBubbles_find (i : N) :
  (i < 5)%N ->
  find (fun b => strictEq (bubble_id b) (numberToString i)) createBubbles
  = Some (mkBubble (numberToString i) (nth (N.to_nat i) therapyPrompts [])).
Proof.
  intros H.
  assert (K : i = 0%N \/ i = 1%N \/ i = 2%N \/ i = 3%N \/ i = 4%N) by lia.
  destruct K as [->|[->|[->|[->| ->]]]]; vm_compute; reflexivity.
Qed.

Lemma setInput_then_guarded (c : Store) (t : Js.str) (env : Env) (s : Machine) :
  guard c = true ->
  (setInputMessage t ;; sendMessage AppIndex c) env s
  = mkResult (Normal tt)
      (mkMachine (mkStore (downloadProgress (store s)) (messages (store s)) t
                          (error (store s)) (isProcessing (store s))
                          (context (store s)))
                 (fs s))
      [].
Proof.
  intros G. unfold bind, setInputMessage, modifyStore.
  rewrite (sendMessage_guarded AppIndex c env _ G). reflexivity.
Qed.

(** X11: a quick reply is not sent.  On a screen showing the five
    bubbles whose input box is blank (or which is busy), pressing bubble
    [i] makes no external call and leaves the transcript alone: it hides
    the row of bubbles and puts the text of the bubble in the input box,
    because the [sendMessage] it calls still sees the input of the
    render before. *)
Theorem bubble_press_only_fills_input (sc : Screen) (env : Env) (i : N) :
  actionBubbles (chat sc) = createBubbles ->
  (i < 5)%N ->
  isProcessing (store (machine sc)) = true
  \/ forallb Js.isWhiteSpace (inputMessage (store (machine sc))) = true ->
  let st := store (machine sc) in
  log (snd (handleBubblePress (chat sc) st (numberToString i)) env (machine sc)) = []
  /\ uiStep (PressBubble (numberToString i)) env sc
     = mkScreen
         (mkChatInput createBubbles false (inputFocused (chat sc)))
         (mkMachine
            (mkStore (downloadProgress st) (messages st)
                     (nth (N.to_nat i) therapyPrompts [])
                     (error st) (isProcessing st) (context st))
            (fs (machine sc))).
Proof.
  intros A I G. apply guard_spec in G. cbv zeta.
  unfold uiStep, handleBubblePress. rewrite A, (createBubbles_find I).
  cbn [fst snd bubble_text].
  rewrite (setInput_then_guarded _ _ env (machine sc) G). cbn [log final].
  split; [reflexivity|]. f_equal.
  unfold afterRender, bubblesEffect. cbn.
  destruct (showBubbles (chat sc)); cbn; rewrite ?A; reflexivity.
Qed.

Lemma bubble_press_only_fills_input_witness :
  uiStep (PressBubble (Js.lit "1")) stubWorld (screenAtLaunch (mkFS false false))
  = mkScreen
      (mkChatInput createBubbles false false)
      (mkMachine (mkStore (0, 1)%N [] (Js.lit "Can't sleep") None false None)
                 (mkFS false false)).
Proof.
  apply (bubble_press_only_fills_input (screenAtLaunch (mkFS false false))
           stubWorld (i := 1%N)).
  - reflexivity.
  - reflexivity.
  - right. reflexivity.
Defined.

(** X12: what a bubble press sends is the old input.  Whenever a bubble
    press issues a completion request, the request is the one for the
    transcript and the input captured by the render (its user turn holds
    what was in the input box, not the text of the bubble), and the input
    box ends empty, so the text of the bubble is lost. *)
Theorem bubble_press_sends_captured_input (ci : ChatInputState) (c : Store)
        (id : Js.str) (env : Env) (s : Machine) (h : Handle) (req : CompletionRequest) :
  In (EvCompletion h req) (log (snd (handleBubblePress ci c id) env s)) ->
  req = requestOf AppIndex (messages c) (inputMessage c)
  /\ inputMessage (store (final (snd (handleBubblePress ci c id) env s))) = []
  /\ log (snd (handleBubblePress ci c id) env s) = [EvCompletion h req].
Proof.
  unfold handleBubblePress.
  destruct (find _ (actionBubbles ci)) as [b|]; cbn [snd]; [|intros []].
  unfold bind, setInputMessage, modifyStore.
  set (s' := mkMachine _ (fs s)).
  destruct (sendMessage_ways AppIndex c env s')
    as [[_ E]|[(_ & _ & E)|(h' & _ & _ & O & L & F)]].
  - rewrite E. cbn. intros [].
  - rewrite E. cbn. intros Hin. exfalso.
    exact (no_completion_not_in _ h req (loadModel_no_completion env s') Hin).
  - destruct (sendMessage AppIndex c env s') as [o f l]. cbn in O, L, F.
    subst o l f. cbn. intros [K|[]]. injection K as <- <-. auto.
Qed.

Lemma bubble_press_sends_captured_input_witness :
  let s := loaded [] None (Js.lit "old draft") in
  let run := snd (handleBubblePress chatInputMounted (store s) (Js.lit "1")) in
  log (run stubWorld s)
  = [EvCompletion 7%N (requestOf AppIndex [] (Js.lit "old draft"))]
  /\ inputMessage (store (final (run stubWorld s))) = []
  /\ messages (store (final (run stubWorld s)))
     = [mkMessage user (Js.lit "old draft"); mkMessage assistant (Js.lit "I hear you.")].
Proof.
  cbv zeta.
  assert (Hin : In (EvCompletion 7%N (requestOf AppIndex [] (Js.lit "old draft")))
                   (log (snd (handleBubblePress chatInputMounted
                                (store (loaded [] None (Js.lit "old draft")))
                                (Js.lit "1"))
                           stubWorld (loaded [] None (Js.lit "old draft")))))
    by (left; reflexivity).
  destruct (bubble_press_sends_captured_input _ _ _ _ _ _ _ Hin) as (_ & I & L).
  split; [exact L|]. split; [exact I | reflexivity].
Defined.

Lemma uiStep_bubbles_hidden (a : UiAction) (env : Env) (sc : Screen) :
  bubblesVisible (chat sc) = false ->
  bubblesVisible (chat (uiStep a env sc)) = false.
Proof.
  unfold bubblesVisible. intros H. destruct a as [a| |id]; cbn [uiStep chat].
  - exact H.
  - unfold afterRender, handleInputFocus, bubblesEffect. cbn.
    destruct (showBubbles (chat sc)); reflexivity.
  - unfold handleBubblePress.
    destruct (find _ (actionBubbles (chat sc))) as [b|]; cbn [chat].
    + unfold afterRender, bubblesEffect. cbn.
      destruct (showBubbles (chat sc)); reflexivity.
    + unfold afterRender. rewrite eqb_reflx. exact H.
Qed.

(** X13: the quick replies never come back.  Once the row of bubbles is
    off the screen (the input box was focused, or a bubble was pressed),
    no action brings it back: not sending, not clearing the chat, not
    editing. *)
Theorem bubbles_never_reappear (history : list (UiAction * Env)) (sc : Screen) :
  bubblesVisible (chat sc) = false ->
  bubblesVisible (chat (runUi history sc)) = false.
Proof.
  revert sc. induction history as [|[a env] rest IH]; intros sc H; [exact H|].
  cbn [runUi]. apply IH. now apply uiStep_bubbles_hidden.
Qed.

Lemma bubbles_never_reappear_witness :
  let sc := uiStep FocusInput stubWorld (screenAtLaunch (mkFS true true)) in
  bubblesVisible (chat (screenAtLaunch (mkFS true true))) = true
  /\ bubblesVisible (chat sc) = false
  /\ bubblesVisible
       (chat (runUi [ (OnScreen (ChangeText (Js.lit "hello")), stubWorld);
                      (OnScreen Press, stubWorld); (OnScreen Press, stubWorld);
                      (OnScreen Clear, stubWorld) ] sc)) = false.
Proof.
  cbv zeta. split; [reflexivity|]. split; [reflexivity|].
  apply (bubbles_never_reappear
           [ (OnScreen (ChangeText (Js.lit "hello")), stubWorld);
             (OnScreen Press, stubWorld); (OnScreen Press, stubWorld);
             (OnScreen Clear, stubWorld) ]
           (uiStep FocusInput stubWorld (screenAtLaunch (mkFS true true)))).
  reflexivity.
Defined.

(* ------------------------------------------------------------------ *)
(** ** Progress and retries *)

(** [downloadProgress] after a run: the last notification of the
    transfer, if one was started. *)
Lemma loadModel_progress (env : Env) (s : Machine) :
  downloadProgress (store (final (loadModel env s)))
  = match downloads (log (loadModel env s)) with
    | O => downloadProgress (store s)
    | S _ => last (downloadTicks env) (downloadProgress (store s))
    end.
Proof.
  unfold downloads. destruct env as [gi mk ticks dout mi il cr].
  cbn [downloadTicks].
  run_loadModel; reflexivity.
Qed.

Lemma handler_progress (v : Variant) (a : Action) (env : Env) (s : Machine) :
  downloadProgress (store (final (handler v a env s)))
  = match downloads (log (handler v a env s)) with
    | O => downloadProgress (store s)
    | S _ => last (downloadTicks env) (downloadProgress (store s))
    end.
Proof.
  destruct a as [| |t]; cbn [handler].
  - unfold onPress.
    destruct (sendMessage_ways v (store s) env s)
      as [[_ E]|[(_ & _ & E)|(h & _ & _ & _ & L & F)]].
    + rewrite E. reflexivity.
    + rewrite E. cbn [final log]. apply loadModel_progress.
    + rewrite L, F. reflexivity.
  - destruct v; reflexivity.
  - reflexivity.
Qed.

(** X15: the progress value is only ever written by a transfer, and
    never reset.  A handler that starts a transfer leaves
    [downloadProgress] at the last notification it received (unchanged if
    there was none); a session that starts no transfer leaves it exactly
    as it was, so the value reached by a transfer that failed midway
    stays until the next transfer. *)
Theorem progress_only_moves_with_a_transfer (v : Variant)
        (history : list (Action * Env)) (a : Action) (env : Env) (s : Machine) :
  downloadProgress (store (final (handler v a env s)))
  = match downloads (log (handler v a env s)) with
    | O => downloadProgress (store s)
    | S _ => last (downloadTicks env) (downloadProgress (store s))
    end
  /\ (downloads (sessionLog v history s) = 0 ->
      downloadProgress (store (runSession v history s)) = downloadProgress (store s)).
Proof.
  split; [apply handler_progress|].
  revert s. induction history as [|[a' env'] rest IH]; intros s H; [reflexivity|].
  cbn [runSession sessionLog] in *. unfold downloads in H.
  rewrite filter_app, length_app in H.
  rewrite IH by (unfold downloads; lia).
  rewrite handler_progress. unfold downloads.
  destruct (List.length (filter isDownload (log (handler v a' env' s))));
    [reflexivity | lia].
Qed.

Lemma progress_only_moves_with_a_transfer_witness :
  let s1 := final (onPress AppIndex (brokenTransfer timedOut) (launched (Js.lit "hello"))) in
  let history := [ (Clear, stubWorld); (ChangeText (Js.lit "   "), stubWorld);
                   (Press, stubWorld) ] in
  downloadProgress (store s1) = (250000, 1000000)%N
  /\ downloads (sessionLog AppIndex history s1) = 0
  /\ downloadProgress (store (runSession AppIndex history s1)) = (250000, 1000000)%N.
Proof.
  cbv zeta. split; [reflexivity|]. split; [reflexivity|].
  destruct (progress_only_moves_with_a_transfer AppIndex
              [ (Clear, stubWorld); (ChangeText (Js.lit "   "), stubWorld);
                (Press, stubWorld) ]
              Press stubWorld
              (final (onPress AppIndex (brokenTransfer timedOut)
                        (launched (Js.lit "hello")))))
    as [_ H].
  rewrite H; reflexivity.
Defined.

(** The disk after a run whose transfer failed. *)
Lemma loadModel_failed_transfer (env : Env) (s : Machine) (e : Js.Error)
      (partialLeft : bool) :
  In (EvDownload MODEL_URL LocalModelPath) (log (loadModel env s)) ->
  downloadOutcome env = Some (e, partialLeft) ->
  fs (final (loadModel env s)) = mkFS true partialLeft
  /\ context (store (final (loadModel env s))) = context (store s).
Proof.
  intros Hin Hout.
  destruct s as [st [d f]].
  destruct env as [gi mk ticks dout mi il cr]; cbn in Hout; subst dout.
  revert Hin.
  run_loadModel; intros Hin;
    try (cbn in Hin; repeat (destruct Hin as [Hin|Hin]; [discriminate|]);
         destruct Hin);
    split; reflexivity.
Qed.

(** Whether a run over an existing directory starts the transfer. *)
Lemma loadModel_downloads_iff_absent (env : Env) (s : Machine) :
  dirExists (fs s) = true ->
  getInfoError env ModelDirectory false = None ->
  getInfoError env LocalModelPath false = None ->
  downloads (log (loadModel env s)) = if fileExists (fs s) then 0 else 1.
Proof.
  intros D G1 G2. destruct s as [st [d f]].
  destruct env as [gi mk ticks dout mi il cr]. cbn in D, G1, G2. subst d.
  unfold downloads. cbn [fs fileExists].
  run_loadModel; first [ reflexivity | congruence ].
Qed.

(** X16: pressing again after a failed transfer.  The first press stored
    no handle and left the text in the input box, so the second press
    provisions again.  If the failed transfer left no file, the second
    press starts the transfer anew; if it left a partial file, the
    second press starts no transfer: the file found at the path is
    taken as the model without any check. *)
Theorem retry_after_failed_transfer (v : Variant) (env1 env2 : Env) (s : Machine)
        (e : Js.Error) (partialLeft : bool) :
  isProcessing (store s) = false ->
  forallb Js.isWhiteSpace (inputMessage (store s)) = false ->
  context (store s) = None ->
  In (EvDownload MODEL_URL LocalModelPath) (log (onPress v env1 s)) ->
  downloadOutcome env1 = Some (e, partialLeft) ->
  getInfoError env2 ModelDirectory false = None ->
  getInfoError env2 LocalModelPath false = None ->
  let s1 := final (onPress v env1 s) in
  context (store s1) = None
  /\ inputMessage (store s1) = inputMessage (store s)
  /\ messages (store s1) = messages (store s)
  /\ log (onPress v env2 s1) = log (loadModel env2 s1)
  /\ downloads (log (onPress v env2 s1)) = if partialLeft then 0 else 1.
Proof.
  intros P W C Hin Hout G1 G2. cbv zeta.
  pose proof (guard_false _ P W) as G.
  unfold onPress in *.
  rewrite (sendMessage_provisions v (store s) env1 s G C) in *.
  cbn [final log] in *.
  destruct (loadModel_failed_transfer env1 s Hin Hout) as [F K].
  destruct (loadModel_frame env1 s) as [Fm Fi].
  assert (G' : guard (store (final (loadModel env1 s))) = false).
  { apply guard_false; [apply loadModel_releases | now rewrite Fi]. }
  assert (C' : context (store (final (loadModel env1 s))) = None) by congruence.
  rewrite (sendMessage_provisions v _ env2 _ G' C'). cbn [final log].
  repeat split; auto.
  rewrite (loadModel_downloads_iff_absent env2 _); rewrite ?F; auto.
Qed.

Lemma retry_after_failed_transfer_witness :
  let s := launched (Js.lit "hello") in
  let s1 := final (onPress AppIndex (brokenTransfer timedOut) s) in
  context (store s1) = None
  /\ inputMessage (store s1) = Js.lit "hello"
  /\ messages (store s1) = []
  /\ log (onPress AppIndex stubWorld s1) = log (loadModel stubWorld s1)
  /\ downloads (log (onPress AppIndex stubWorld s1)) = 1.
Proof.
  cbv zeta.
  apply (@retry_after_failed_transfer AppIndex (brokenTransfer timedOut) stubWorld
           (launched (Js.lit "hello")) timedOut false);
    first [ reflexivity | vm_compute; tauto ].
Defined.

(* ------------------------------------------------------------------ *)
(** ** Two provisioning attempts *)




